(** * Survey upload script: household submissions for KoBoToolbox

    A shallow embedding of [main.py]: the cell values and tables the script
    receives from pandas, the XML elements it builds with ElementTree, and
    its four functions [load_config], [process_submission],
    [post_submission] and [main], written in a small state-and-exception
    monad over the parts of the outside world the script touches (the
    calendar, the spreadsheet files, the remote service, the log, the
    worker pool).

    Scope of the data model.  A spreadsheet cell is text, an integer, a
    boolean, or missing (pandas' NaN).  Finite floating-point cells, and
    with them the promotion of an integer column to floats, are outside the
    model.  Strings are sequences of bytes. *)

From Stdlib Require Import String Ascii List ZArith Arith Bool Lia.
From Stdlib Require Import DecimalString.
Import ListNotations.

Local Open Scope string_scope.
Local Open Scope list_scope.

Set Warnings "-register-all".

(* ********************************************************************* *)
(** * Part I: the model                                                  *)
(* ********************************************************************* *)

(* ===================================================================== *)
(** ** Cell values and Python's [str] and [==]                            *)
(* ===================================================================== *)

Inductive Value : Type :=
| VInt (z : Z)
| VStr (s : string)
| VBool (b : bool)
| VNaN.

(** [str(n)] for a Python integer. *)
Definition str_int (z : Z) : string := NilZero.string_of_int (Z.to_int z).

(** [str(v)] as applied by the builder to every cell. *)
Definition str (v : Value) : string :=
  match v with
  | VInt z => str_int z
  | VStr s => s
  | VBool true => "True"
  | VBool false => "False"
  | VNaN => "nan"
  end.

Definition Z_of_bool (b : bool) : Z := if b then 1%Z else 0%Z.

(** [a == b] as pandas evaluates it cell by cell: numbers compare by value
    (a boolean is the integer 1 or 0), text compares with text, text never
    equals a number, and NaN equals nothing, itself included. *)
Definition py_eq (a b : Value) : bool :=
  match a, b with
  | VNaN, _ | _, VNaN => false
  | VStr s, VStr t => String.eqb s t
  | VStr _, _ | _, VStr _ => false
  | VInt x, VInt y => Z.eqb x y
  | VInt x, VBool c => Z.eqb x (Z_of_bool c)
  | VBool c, VInt y => Z.eqb (Z_of_bool c) y
  | VBool c, VBool d => Bool.eqb c d
  end.

(** Equality of cells as values of the same type: the comparison a reader
    of the words "exact equality, no type coercion" would write. *)
Definition exact_eq (a b : Value) : bool :=
  match a, b with
  | VInt x, VInt y => Z.eqb x y
  | VStr s, VStr t => String.eqb s t
  | VBool c, VBool d => Bool.eqb c d
  | VNaN, VNaN => true
  | _, _ => false
  end.

(* ===================================================================== *)
(** ** Series, records and data frames                                    *)
(* ===================================================================== *)

(** A [pd.Series] indexed by labels (one row handed out by [iterrows]), and
    a record of [to_dict('records')]: labels with their cells, in order. *)
Definition Series : Type := list (string * Value).

Definition dict : Type := list (string * Value).

Fixpoint lookup (k : string) (s : list (string * Value)) : option Value :=
  match s with
  | [] => None
  | (k', v) :: s' => if String.eqb k' k then Some v else lookup k s'
  end.

(** A [pd.DataFrame]: the column labels, and the rows as cells in column
    order. *)
Record DataFrame : Type := mkDataFrame {
  columns : list string;
  values : list (list Value)
}.

(** Every row has one cell per column. *)
Definition rectangular (df : DataFrame) : Prop :=
  Forall (fun r => length r = length (columns df)) (values df).

(** [len(df)]: the number of rows. *)
Definition len (df : DataFrame) : nat := length (values df).

(** [df.empty]: true when either axis has length 0. *)
Definition empty (df : DataFrame) : bool :=
  Nat.eqb (length (columns df)) 0 || Nat.eqb (length (values df)) 0.

(** [df.iterrows()], without the row labels the script never uses. *)
Definition iterrows (df : DataFrame) : list Series :=
  map (fun r => combine (columns df) r) (values df).

(** [df.to_dict('records')]. *)
Definition to_dict_records (df : DataFrame) : list dict :=
  map (fun r => combine (columns df) r) (values df).

Definition mem_string (k : string) (l : list string) : bool :=
  existsb (String.eqb k) l.

(** Column labels of [pd.DataFrame(records)]: the keys of the records in
    order of first appearance. *)
Fixpoint union_keys (seen : list string) (ks : list string) : list string :=
  match ks with
  | [] => seen
  | k :: ks' =>
      if mem_string k seen then union_keys seen ks'
      else union_keys (seen ++ [k]) ks'
  end.

Definition records_columns (records : list dict) : list string :=
  fold_left (fun seen d => union_keys seen (map fst d)) records [].

(** [pd.DataFrame(records)], as to its shape: one row per record, one
    column per key, a missing cell (NaN) where a record lacks the key.  The
    cells a record has are kept as they are; that pandas infers the type of
    each column anew, and so turns the integers of a column that also holds
    a missing cell into floats, is outside the model (see the scope above):
    the properties below use the shape of this table only. *)
Definition DataFrame_of_records (records : list dict) : DataFrame :=
  let cols := records_columns records in
  mkDataFrame cols
    (map (fun d => map (fun c => match lookup c d with
                                 | Some v => v
                                 | None => VNaN
                                 end) cols) records).

(* ===================================================================== *)
(** ** ElementTree elements and their serialization                       *)
(* ===================================================================== *)

(** An [xml.etree.ElementTree.Element]: tag, attributes in insertion order,
    text ([None] until assigned) and children in insertion order. *)
Inductive Element : Type :=
| mkElement (tag : string) (attrib : list (string * string))
            (text : option string) (children : list Element).

Definition tag (e : Element) : string :=
  match e with mkElement t _ _ _ => t end.

Definition attrib (e : Element) : list (string * string) :=
  match e with mkElement _ a _ _ => a end.

Definition text (e : Element) : option string :=
  match e with mkElement _ _ x _ => x end.

Definition children (e : Element) : list Element :=
  match e with mkElement _ _ _ cs => cs end.

(** [ET.Element(tag)]. *)
Definition new_Element (t : string) : Element := mkElement t [] None [].

Fixpoint dict_set (k v : string) (d : list (string * string))
  : list (string * string) :=
  match d with
  | [] => [(k, v)]
  | (k', v') :: d' =>
      if String.eqb k' k then (k', v) :: d' else (k', v') :: dict_set k v d'
  end.

Fixpoint dict_get (k : string) (d : list (string * string)) : option string :=
  match d with
  | [] => None
  | (k', v) :: d' => if String.eqb k' k then Some v else dict_get k d'
  end.

(** [elem.set(key, value)] and [elem.get(key)]. *)
Definition set (e : Element) (k v : string) : Element :=
  match e with mkElement t a x cs => mkElement t (dict_set k v a) x cs end.

Definition get (e : Element) (k : string) : option string :=
  dict_get k (attrib e).

(** The child [ET.SubElement(parent, tag)] creates, once its text is
    assigned. *)
Definition leaf (t x : string) : Element := mkElement t [] (Some x) [].

(** [parent] after a finished child has been attached as its last child. *)
Definition append (parent child : Element) : Element :=
  match parent with
  | mkElement t a x cs => mkElement t a x (cs ++ [child])
  end.

(** [ET.SubElement(parent, tag).text = x]. *)
Definition SubElement_text (parent : Element) (t x : string) : Element :=
  append parent (leaf t x).

(** [elem.findall(tag)], [elem.find(tag)] and [elem.findtext(tag)] over the
    direct children. *)
Definition findall (e : Element) (t : string) : list Element :=
  filter (fun c => String.eqb (tag c) t) (children e).

Definition find (e : Element) (t : string) : option Element :=
  List.find (fun c => String.eqb (tag c) t) (children e).

Definition findtext (e : Element) (t : string) : option string :=
  match find e t with
  | Some c => text c
  | None => None
  end.

(** The double-quote character, as a string. *)
Definition dquote : string := String (ascii_of_nat 34) EmptyString.

Definition amp : ascii := ascii_of_nat 38.

Definition lt_sign : ascii := ascii_of_nat 60.

Definition gt_sign : ascii := ascii_of_nat 62.

(** [_escape_cdata]. *)
Fixpoint escape_cdata (s : string) : string :=
  match s with
  | EmptyString => EmptyString
  | String c s' =>
      (if Ascii.eqb c amp then "&amp;"
       else if Ascii.eqb c lt_sign then "&lt;"
       else if Ascii.eqb c gt_sign then "&gt;"
       else String c EmptyString) ++ escape_cdata s'
  end.

(** [_escape_attrib]. *)
Fixpoint escape_attrib (s : string) : string :=
  match s with
  | EmptyString => EmptyString
  | String c s' =>
      (if Ascii.eqb c amp then "&amp;"
       else if Ascii.eqb c lt_sign then "&lt;"
       else if Ascii.eqb c gt_sign then "&gt;"
       else if Ascii.eqb c (ascii_of_nat 34) then "&quot;"
       else if Ascii.eqb c (ascii_of_nat 13) then "&#13;"
       else if Ascii.eqb c (ascii_of_nat 10) then "&#10;"
       else if Ascii.eqb c (ascii_of_nat 9) then "&#09;"
       else String c EmptyString) ++ escape_attrib s'
  end.

Definition serialize_attrib (kv : string * string) : string :=
  " " ++ fst kv ++ "=" ++ dquote ++ escape_attrib (snd kv) ++ dquote.

Definition is_nonempty (x : option string) : bool :=
  match x with
  | Some (String _ _) => true
  | _ => false
  end.

(** [_serialize_xml] with short empty elements; the script uses neither
    namespaced names nor tails. *)
Fixpoint serialize_xml (e : Element) : string :=
  match e with
  | mkElement t a x cs =>
      "<" ++ t ++ String.concat "" (map serialize_attrib a) ++
      (if is_nonempty x || negb (Nat.eqb (length cs) 0) then
         ">" ++ match x with Some s => escape_cdata s | None => "" end
             ++ String.concat "" (map serialize_xml cs)
             ++ "</" ++ t ++ ">"
       else " />")
  end.

(** [ET.tostring(root, encoding='utf-8', method='xml')]: for this encoding
    no XML declaration is written. *)
Definition tostring (root : Element) : string := serialize_xml root.

(* ===================================================================== *)
(** ** Dates                                                              *)
(* ===================================================================== *)

Record Date : Type := mkDate { year : nat; month : nat; day : nat }.

Definition digit (n : nat) : ascii := ascii_of_nat (48 + n mod 10).

(** [%Y], [%m] and [%d]: zero-padded decimal fields. *)
Definition pad4 (n : nat) : string :=
  String (digit (n / 1000)) (String (digit (n / 100))
    (String (digit (n / 10)) (String (digit n) EmptyString))).

Definition pad2 (n : nat) : string :=
  String (digit (n / 10)) (String (digit n) EmptyString).

(** [d.strftime('%Y-%m-%d')], for the four-digit years of the dates
    [date.today()] returns. *)
Definition strftime (d : Date) : string :=
  pad4 (year d) ++ "-" ++ pad2 (month d) ++ "-" ++ pad2 (day d).

Definition is_digit (c : ascii) : bool :=
  Nat.leb 48 (nat_of_ascii c) && Nat.leb (nat_of_ascii c) 57.

(* ===================================================================== *)
(** ** The outside world, and the monad of the script                     *)
(* ===================================================================== *)

Inductive Exception : Type :=
| KeyError (key : string)
| FileNotFoundError (filename : string)
| RequestException (detail : string).

(** [str(e)], as interpolated into the log lines. *)
Definition str_exception (e : Exception) : string :=
  match e with
  | KeyError k => "'" ++ k ++ "'"
  | FileNotFoundError f => "[Errno 2] No such file or directory: '" ++ f ++ "'"
  | RequestException d => d
  end.

Inductive Result (A : Type) : Type :=
| Ok (a : A)
| Raise (e : Exception).

Arguments Ok {A} a.

Arguments Raise {A} e.

Record ChildSource : Type := mkChildSource { name : string; path : string }.

(** The configuration dictionary read from [config.json]. *)
Record Config : Type := mkConfig {
  parent_data_path : string;
  parent_id_column : string;
  child_id_column : string;
  project_uuid : string;
  child_data_paths : list ChildSource;
  api_token : string
}.

Inductive Level : Type := INFO | WARNING | ERROR.

Record Response : Type := mkResponse {
  status_code : Z;
  response_text : string
}.

(** One multipart part: form field, file name, content, content type. *)
Record FilePart : Type := mkFilePart {
  field : string; filename : string; content : string; content_type : string
}.

Record Request : Type := mkRequest {
  url : string;
  req_headers : list (string * string);
  files : list FilePart
}.

(** Work handed to the executor: the arguments of [post_submission]. *)
Record Task : Type := mkTask {
  task_root : Element;
  task_endpoint : string;
  task_headers : list (string * string)
}.

(** What the script can observe and change.  [calendar n] is the date the
    [n]-th look at the calendar returns, so that the date may change
    between any two looks; [remote n r] is the outcome of request [r] when
    [n] requests went out before it. *)
Record World : Type := mkWorld {
  calendar : nat -> Date;
  looks : nat;
  json_files : string -> Result Config;
  excel_files : string -> option DataFrame;
  remote : nat -> Request -> Result Response;
  sent : list Request;
  log : list (Level * string);
  pool : list Task
}.

(** Updates of one component of the world. *)
Definition with_looks (n : nat) (w : World) : World :=
  mkWorld (calendar w) n (json_files w) (excel_files w) (remote w)
          (sent w) (log w) (pool w).

Definition with_sent (s : list Request) (w : World) : World :=
  mkWorld (calendar w) (looks w) (json_files w) (excel_files w) (remote w)
          s (log w) (pool w).

Definition with_log (l : list (Level * string)) (w : World) : World :=
  mkWorld (calendar w) (looks w) (json_files w) (excel_files w) (remote w)
          (sent w) l (pool w).

Definition with_pool (p : list Task) (w : World) : World :=
  mkWorld (calendar w) (looks w) (json_files w) (excel_files w) (remote w)
          (sent w) (log w) p.

Definition M (A : Type) : Type := World -> Result A * World.

Definition ret {A} (a : A) : M A := fun w => (Ok a, w).

Definition raise {A} (e : Exception) : M A := fun w => (Raise e, w).

Definition bind {A B} (c : M A) (k : A -> M B) : M B :=
  fun w =>
    match c w with
    | (Ok a, w') => k a w'
    | (Raise e, w') => (Raise e, w')
    end.

Notation "x <- c ;; k" := (bind c (fun x => k))
  (at level 61, c at next level, right associativity).

Notation "c ;;; k" := (bind c (fun _ => k))
  (at level 61, right associativity).

(** [try: body  except Exception as e: handler(e)]. *)
Definition try_except {A} (body : M A) (handler : Exception -> M A) : M A :=
  fun w =>
    match body w with
    | (Ok a, w') => (Ok a, w')
    | (Raise e, w') => handler e w'
    end.

(** [for x in xs: body(x)]. *)
Fixpoint for_each {X} (xs : list X) (body : X -> M unit) : M unit :=
  match xs with
  | [] => ret tt
  | x :: xs' => body x ;;; for_each xs' body
  end.

(** A loop that rebuilds one local variable on each turn. *)
Fixpoint for_fold {X S} (xs : list X) (body : S -> X -> M S) (s : S) : M S :=
  match xs with
  | [] => ret s
  | x :: xs' => s' <- body s x ;; for_fold xs' body s'
  end.

(** [date.today()]: one look at the calendar. *)
Definition date_today : M Date :=
  fun w =>
    (Ok (calendar w (looks w)), with_looks (S (looks w)) w).

(** [logging.info], [logging.warning], [logging.error]. *)
Definition logging (lvl : Level) (msg : string) : M unit :=
  fun w =>
    (Ok tt, with_log (log w ++ [(lvl, msg)]) w).

(** [requests.post(endpoint, headers=headers, files=payload)]. *)
Definition requests_post (endpoint : string) (headers : list (string * string))
    (payload : list FilePart) : M Response :=
  fun w =>
    let r := mkRequest endpoint headers payload in
    (remote w (length (sent w)) r, with_sent (sent w ++ [r]) w).

(** [os.path.isfile(path)] and [pd.read_excel(path)]. *)
Definition isfile (p : string) : M bool :=
  fun w =>
    (Ok (match excel_files w p with Some _ => true | None => false end), w).

Definition read_excel (p : string) : M DataFrame :=
  fun w =>
    match excel_files w p with
    | Some df => (Ok df, w)
    | None => (Raise (FileNotFoundError p), w)
    end.

(** [executor.submit(post_submission, root, endpoint, headers)]: the work
    is queued and the caller goes on at once. *)
Definition submit (t : Task) : M unit :=
  fun w =>
    (Ok tt, with_pool (pool w ++ [t]) w).

(** [series[label]]: a lookup that raises [KeyError] on an absent label. *)
Definition getitem (s : Series) (label : string) : M Value :=
  match lookup label s with
  | Some v => ret v
  | None => raise (KeyError label)
  end.

(** [df[label]]: one column, or [KeyError]. *)
Definition getcolumn (df : DataFrame) (label : string) : M (list Value) :=
  if mem_string label (columns df) then
    ret (map (fun r => match lookup label (combine (columns df) r) with
                       | Some v => v
                       | None => VNaN
                       end) (values df))
  else raise (KeyError label).

(** [df[mask]]: the rows at which the boolean mask is true, in order. *)
Fixpoint select (mask : list bool) (rows : list (list Value))
  : list (list Value) :=
  match mask, rows with
  | b :: mask', r :: rows' =>
      if b then r :: select mask' rows' else select mask' rows'
  | _, _ => []
  end.

Definition getmask (df : DataFrame) (mask : list bool) : DataFrame :=
  mkDataFrame (columns df) (select mask (values df)).

(* ===================================================================== *)
(** ** The script                                                         *)
(* ===================================================================== *)

(** [load_config(config_file)]: the configuration, or [None] after logging
    the failure. *)
Definition load_config (config_file : string) : M (option Config) :=
  try_except
    (fun w =>
       match json_files w config_file with
       | Ok config => (Ok (Some config), w)
       | Raise e => (Raise e, w)
       end)
    (fun e =>
       logging ERROR ("Failed to load config: " ++ str_exception e) ;;;
       ret None).

(** The body of the loop over [matching_rows.iterrows()]: one [Individual]
    element appended to [root]. *)
Definition add_Individual (root : Element) (matching_row : Series)
  : M Element :=
  let Individual := new_Element "Individual" in
  v <- getitem matching_row "FID" ;;
  let Individual := SubElement_text Individual "FID" (str v) in
  v <- getitem matching_row "Individual_FullName" ;;
  let Individual := SubElement_text Individual "Individual_FullName" (str v) in
  v <- getitem matching_row "Individual_Sex" ;;
  let Individual := SubElement_text Individual "Individual_Sex" (str v) in
  v <- getitem matching_row "Individual_Age" ;;
  let Individual := SubElement_text Individual "Individual_Age" (str v) in
  v <- getitem matching_row "Relationship" ;;
  let Individual := SubElement_text Individual "Relationship" (str v) in
  ret (append root Individual).

(** [process_submission(row, matching_rows, project_uuid)].  Python attaches
    [intro], [household] and each [Individual] to [root] when it creates
    them and fills them afterwards; here each is attached once filled, which
    leaves the same tree: the children of [root] are created in the order
    start, end, today, intro, household, the Individuals, meta. *)
Definition process_submission (row : Series) (matching_rows : DataFrame)
    (project_uuid : string) : M Element :=
  today <- date_today ;;
  let today_str := strftime today in

  let root := new_Element "data" in
  let root := set root "id" project_uuid in
  let root := set root "xmlns:orx" "http://openrosa.org/xforms" in
  let root := set root "xmlns:jr" "http://openrosa.org/javarosa" in

  let root := SubElement_text root "start" today_str in
  let root := SubElement_text root "end" today_str in
  let root := SubElement_text root "today" today_str in

  let intro := new_Element "intro" in
  let intro := SubElement_text intro "acknowledgement" "OK" in
  let root := append root intro in

  let household := new_Element "household" in
  v <- getitem row "FID" ;;
  let household := SubElement_text household "FID" (str v) in
  v <- getitem row "HName" ;;
  let household := SubElement_text household "HName" (str v) in
  v <- getitem row "HSex" ;;
  let household := SubElement_text household "HSex" (str v) in
  v <- getitem row "HAge" ;;
  let household := SubElement_text household "HAge" (str v) in
  v <- getitem row "HLocation" ;;
  let household := SubElement_text household "HLocation" (str v) in

  let has_child_record := if negb (empty matching_rows) then "Yes" else "No" in
  let household := SubElement_text household "other_members" has_child_record in

  let child_count := len matching_rows + 1 in
  let household :=
    SubElement_text household "HHSize" (str_int (Z.of_nat child_count)) in
  let root := append root household in

  root <- for_fold (iterrows matching_rows) add_Individual root ;;

  let meta := new_Element "meta" in
  let meta := SubElement_text meta "instanceID" project_uuid in
  let root := append root meta in

  ret root.

(** [post_submission(root, endpoint, headers)]. *)
Definition post_submission (root : Element) (endpoint : string)
    (headers : list (string * string)) : M unit :=
  try_except
    (let xml_string := tostring root in
     let payload :=
       [mkFilePart "xml_submission_file" "data.xml" xml_string "text/xml"] in
     response <- requests_post endpoint headers payload ;;
     logging INFO ("Submission status: " ++ str_int (status_code response)
                   ++ " " ++ response_text response))
    (fun e => logging ERROR ("Failed to post submission: " ++ str_exception e)).

(** A worker runs one queued task; what the call returns or raises goes
    into a future nobody reads. *)
Definition run_task (t : Task) (w : World) : World :=
  snd (post_submission (task_root t) (task_endpoint t) (task_headers t) w).

(** The workers take the queued tasks one after the other. *)
Definition drain (tasks : list Task) (w : World) : World :=
  fold_left (fun w' t => run_task t w') tasks w.

(** [with ThreadPoolExecutor(max_workers=n) as executor: body].  The
    executor starts with nothing queued; leaving the block, by its end or by
    an exception, waits until every queued task has run.  The workers' log
    lines and requests are placed after the body's, in submission order:
    one of the schedules the pool allows. *)
Definition with_ThreadPoolExecutor {A} (max_workers : nat) (body : M A) : M A :=
  fun w =>
    let (r, w1) := body (with_pool [] w) in
    (r, drain (pool w1) (with_pool [] w1)).

(** Lines 148 to 152: what one configured child table adds to
    [matching_rows_data]. *)
Definition extend_from_child (config : Config) (parent_id : Value)
    (matching_rows_data : list dict) (child_data_path : ChildSource)
  : M (list dict) :=
  present <- isfile (path child_data_path) ;;
  if present then
    df_child <- read_excel (path child_data_path) ;;
    col <- getcolumn df_child (child_id_column config) ;;
    let mask := map (fun v => py_eq v parent_id) col in
    ret (matching_rows_data ++ to_dict_records (getmask df_child mask))
  else
    logging WARNING (name child_data_path ++ " does not exist!") ;;;
    ret matching_rows_data.

(** Lines 145 to 152: the child records matched to one parent key. *)
Definition matching_rows_data (config : Config) (parent_id : Value)
  : M (list dict) :=
  let df_children := child_data_paths config in
  if Nat.ltb 0 (length df_children) then
    for_fold df_children (extend_from_child config parent_id) []
  else ret [].

(** The body of the loop over [df_parent.iterrows()]. *)
Definition process_row (config : Config) (endpoint : string)
    (headers : list (string * string)) (row : Series) : M unit :=
  parent_id <- getitem row (parent_id_column config) ;;
  data <- matching_rows_data config parent_id ;;
  let matching_rows_df := DataFrame_of_records data in
  root <- process_submission row matching_rows_df (project_uuid config) ;;
  submit (mkTask root endpoint headers).

Definition main : M unit :=
  config <- load_config "config.json" ;;
  match config with
  | None => ret tt
  | Some config =>
      df_parent <- read_excel (parent_data_path config) ;;
      let endpoint := "https://kobocat.unhcr.org/api/v1/submissions" in
      let headers :=
        [("Authorization", ("Token " ++ api_token config)%string)] in
      with_ThreadPoolExecutor 5
        (for_each (iterrows df_parent) (process_row config endpoint headers))
  end.

(* ===================================================================== *)
(** ** What the builder computes                                          *)
(* ===================================================================== *)

(** The row fields the builder reads. *)
Definition parent_fields : list string :=
  ["FID"; "HName"; "HSex"; "HAge"; "HLocation"].

Definition child_fields : list string :=
  ["FID"; "Individual_FullName"; "Individual_Sex"; "Individual_Age";
   "Relationship"].

Definition missing (s : Series) (f : string) : bool :=
  match lookup f s with
  | Some _ => false
  | None => true
  end.

(** The first of the fields [fs], in the order the builder reads them, that
    the row lacks. *)
Definition first_missing (fs : list string) (s : Series) : option string :=
  List.find (missing s) fs.

Definition cell (s : Series) (f : string) : Value :=
  match lookup f s with
  | Some v => v
  | None => VNaN
  end.

Definition fields_of (fs : list string) (s : Series) : list Element :=
  map (fun f => leaf f (str (cell s f))) fs.

Definition Individual_of (s : Series) : Element :=
  mkElement "Individual" [] None (fields_of child_fields s).

Fixpoint Individuals (rows : list Series) : Result (list Element) :=
  match rows with
  | [] => Ok []
  | s :: rows' =>
      match first_missing child_fields s with
      | Some k => Raise (KeyError k)
      | None =>
          match Individuals rows' with
          | Ok l => Ok (Individual_of s :: l)
          | Raise e => Raise e
          end
      end
  end.

Definition household_of (row : Series) (matching_rows : DataFrame) : Element :=
  mkElement "household" [] None
    (fields_of parent_fields row ++
     [leaf "other_members" (if negb (empty matching_rows) then "Yes" else "No");
      leaf "HHSize" (str_int (Z.of_nat (len matching_rows + 1)))]).

Definition document (today_str : string) (row : Series)
    (matching_rows : DataFrame) (project_uuid : string)
    (individuals : list Element) : Element :=
  mkElement "data"
    [("id", project_uuid);
     ("xmlns:orx", "http://openrosa.org/xforms");
     ("xmlns:jr", "http://openrosa.org/javarosa")]
    None
    ([leaf "start" today_str; leaf "end" today_str; leaf "today" today_str;
      mkElement "intro" [] None [leaf "acknowledgement" "OK"];
      household_of row matching_rows]
     ++ individuals
     ++ [mkElement "meta" [] None [leaf "instanceID" project_uuid]]).

(** The result of one call of the builder, as a function of the date it is
    given. *)
Definition built (today : Date) (row : Series) (matching_rows : DataFrame)
    (project_uuid : string) : Result Element :=
  match first_missing parent_fields row with
  | Some k => Raise (KeyError k)
  | None =>
      match Individuals (iterrows matching_rows) with
      | Ok l => Ok (document (strftime today) row matching_rows project_uuid l)
      | Raise e => Raise e
      end
  end.

Ltac case_lookup :=
  match goal with
  | |- context [lookup ?f ?s] =>
      let E := fresh "E" in destruct (lookup f s) eqn:E; cbn
  end.

(** A row that has every one of the fields [fs]. *)
Definition complete (fs : list string) (s : Series) : Prop :=
  forall f, In f fs -> lookup f s <> None.

(** Two rows that carry the same cells under the fields [fs]. *)
Definition same_on (fs : list string) (s s' : Series) : Prop :=
  forall f, In f fs -> lookup f s = lookup f s'.

(* ===================================================================== *)
(** ** What the matcher computes                                          *)
(* ===================================================================== *)

(** The records of a child table whose cell under [fk] compares equal to
    the parent key, for a given comparison of cells. *)
Definition matched (eq : Value -> Value -> bool) (fk : string)
    (parent_id : Value) (df : DataFrame) : list dict :=
  filter (fun d => eq (cell d fk) parent_id) (to_dict_records df).

(** The matched records of all configured tables that exist, table after
    table in configuration order. *)
Definition matched_all (eq : Value -> Value -> bool) (config : Config)
    (parent_id : Value) (w : World) : list dict :=
  flat_map (fun src => match excel_files w (path src) with
                       | Some df => matched eq (child_id_column config)
                                            parent_id df
                       | None => []
                       end)
           (child_data_paths config).

Definition is_bool (v : Value) : bool :=
  match v with
  | VBool _ => true
  | _ => false
  end.

(** The integer a numeric cell stands for. *)
Definition number (v : Value) : option Z :=
  match v with
  | VInt z => Some z
  | VBool b => Some (Z_of_bool b)
  | _ => None
  end.

Definition warning_for (src : ChildSource) : Level * string :=
  (WARNING, (name src ++ " does not exist!")%string).

Definition with_children (l : list ChildSource) (config : Config) : Config :=
  mkConfig (parent_data_path config) (parent_id_column config)
           (child_id_column config) (project_uuid config) l (api_token config).

(* ===================================================================== *)
(** ** What a dispatch sends and logs                                     *)
(* ===================================================================== *)

(** The request [post_submission] sends for a task. *)
Definition request_of (t : Task) : Request :=
  mkRequest (task_endpoint t) (task_headers t)
    [mkFilePart "xml_submission_file" "data.xml" (tostring (task_root t))
                "text/xml"].

(** The one log line of a dispatch, given the outcome of its request. *)
Definition log_line (outcome : Result Response) : Level * string :=
  match outcome with
  | Ok response =>
      (INFO, ("Submission status: " ++ str_int (status_code response)
              ++ " " ++ response_text response)%string)
  | Raise e =>
      (ERROR, ("Failed to post submission: " ++ str_exception e)%string)
  end.

(* ===================================================================== *)
(** ** The identifiers of a document                                      *)
(* ===================================================================== *)

(** The identifiers a document carries. *)
Definition identified_by (project_uuid : string) (root : Element) : Prop :=
  get root "id" = Some project_uuid /\
  exists meta, find root "meta" = Some meta /\
               findtext meta "instanceID" = Some project_uuid.

(* ===================================================================== *)
(** ** Rows made of records                                               *)
(* ===================================================================== *)

(** The row of [DataFrame_of_records records] that stands for one
    record. *)
Definition padded (records : list dict) (d : dict) : Series :=
  combine (records_columns records)
          (map (fun c => match lookup c d with
                         | Some v => v
                         | None => VNaN
                         end) (records_columns records)).

(* ===================================================================== *)
(** ** Sample data                                                        *)
(* ===================================================================== *)

Definition doe_row : Series :=
  [("FID", VInt 1); ("HName", VStr "Doe"); ("HSex", VStr "M");
   ("HAge", VInt 40); ("HLocation", VStr "X"); ("Village", VStr "North")].

Definition doe_children : DataFrame :=
  mkDataFrame
    ["FID"; "Individual_FullName"; "Individual_Sex"; "Individual_Age";
     "Relationship"]
    [[VInt 1; VStr "Ann Doe"; VStr "F"; VInt 38; VStr "Spouse"];
     [VInt 1; VStr "Bob Doe"; VStr "M"; VInt 7; VStr "Son"]].

(** The same household with columns the builder never reads. *)
Definition doe_row_wide : Series :=
  ("Enumerator", VStr "E-17") :: doe_row.

Definition doe_children_wide : DataFrame :=
  mkDataFrame
    ["FID"; "Phone"; "Individual_FullName"; "Individual_Sex"; "Individual_Age";
     "Relationship"]
    [[VInt 1; VStr "555"; VStr "Ann Doe"; VStr "F"; VInt 38; VStr "Spouse"];
     [VInt 1; VNaN; VStr "Bob Doe"; VStr "M"; VInt 7; VStr "Son"]].

(** A child table without the [Relationship] column. *)
Definition lodgers : DataFrame :=
  mkDataFrame
    ["FID"; "Individual_FullName"; "Individual_Sex"; "Individual_Age"]
    [[VInt 1; VStr "Cy Roe"; VStr "M"; VInt 52]].

Definition no_config : Result Config := Raise (FileNotFoundError "config.json").

(** A world with no files in which every request fails, and in which the
    date advances by a day at each look. *)
Definition quiet_world : World :=
  mkWorld (fun n => mkDate 2024 3 (1 + n)) 0
          (fun _ => no_config) (fun _ => None)
          (fun _ _ => Raise (RequestException "connection refused"))
          [] [] [].

(** The same world on another day of looking, with other files and a
    service that answers. *)
Definition busy_world : World :=
  mkWorld (fun n => mkDate 2024 3 (n - 2)) 3
          (fun _ => no_config)
          (fun p => if String.eqb p "members.xlsx" then Some doe_children
                    else None)
          (fun _ _ => Ok (mkResponse 201 "created"))
          [] [(INFO, "started")] [].

(** A survey with two households and three configured child tables, of
    which the second does not exist and the third has no [Relationship]
    column. *)
Definition households : DataFrame :=
  mkDataFrame ["FID"; "HName"; "HSex"; "HAge"; "HLocation"]
    [[VInt 1; VStr "Doe"; VStr "M"; VInt 40; VStr "X"];
     [VInt 2; VStr "Poe"; VStr "F"; VInt 61; VStr "Y"]].

Definition members : DataFrame :=
  mkDataFrame
    ["FID"; "Individual_FullName"; "Individual_Sex"; "Individual_Age";
     "Relationship"]
    [[VInt 1; VStr "Ann Doe"; VStr "F"; VInt 38; VStr "Spouse"];
     [VInt 2; VStr "Eve Poe"; VStr "F"; VInt 30; VStr "Daughter"];
     [VInt 1; VStr "Bob Doe"; VStr "M"; VInt 7; VStr "Son"]].

Definition survey_config : Config :=
  mkConfig "households.xlsx" "FID" "FID" "uuid-1"
    [mkChildSource "Members" "members.xlsx";
     mkChildSource "Guests" "guests.xlsx";
     mkChildSource "Lodgers" "lodgers.xlsx"]
    "secret".

Definition survey_files (p : string) : option DataFrame :=
  if String.eqb p "households.xlsx" then Some households
  else if String.eqb p "members.xlsx" then Some members
  else if String.eqb p "lodgers.xlsx" then Some lodgers
  else None.

Definition survey_world : World :=
  mkWorld (fun n => mkDate 2024 3 (1 + n)) 0
          (fun p => if String.eqb p "config.json" then Ok survey_config
                    else no_config)
          survey_files
          (fun n _ => if Nat.eqb n 0 then Ok (mkResponse 201 "created")
                      else Raise (RequestException "connection refused"))
          [] [] [].

(** A child table whose key column holds an integer, a boolean and a
    missing cell. *)
Definition coded_members : DataFrame :=
  mkDataFrame
    ["FID"; "Individual_FullName"; "Individual_Sex"; "Individual_Age";
     "Relationship"]
    [[VInt 1; VStr "Ann Doe"; VStr "F"; VInt 38; VStr "Spouse"];
     [VBool true; VStr "Bob Doe"; VStr "M"; VInt 7; VStr "Son"];
     [VNaN; VStr "Cy Roe"; VStr "M"; VInt 52; VStr "Lodger"]].

Definition coded_world : World :=
  mkWorld (fun n => mkDate 2024 3 (1 + n)) 0 (fun _ => no_config)
          (fun p => if String.eqb p "members.xlsx" then Some coded_members
                    else None)
          (fun _ _ => Raise (RequestException "connection refused"))
          [] [] [].

(* ===================================================================== *)
(** ** The whole run                                                      *)
(* ===================================================================== *)

(** The endpoint and the headers [main] passes to every dispatch. *)
Definition submissions_endpoint : string :=
  "https://kobocat.unhcr.org/api/v1/submissions".

Definition auth_headers (config : Config) : list (string * string) :=
  [("Authorization", ("Token " ++ api_token config)%string)].

(** A configured child table whose file does not exist. *)
Definition absent (w : World) (src : ChildSource) : bool :=
  match excel_files w (path src) with
  | Some _ => false
  | None => true
  end.

(** A table with one cell per column in every row and with every column of
    [fs]. *)
Definition has_columns (fs : list string) (df : DataFrame) : Prop :=
  rectangular df /\ forall f, In f fs -> In f (columns df).

(** The document the builder returns, on the given date, for a parent row
    and the records matched to it. *)
Definition submission (today : Date) (row : Series) (data : list dict)
    (project_uuid : string) : Element :=
  document (strftime today) row (DataFrame_of_records data) project_uuid
           (map Individual_of (iterrows (DataFrame_of_records data))).

(** A request as [main] has its dispatches send them: to the submissions
    endpoint, with the token header, carrying one serialized document that
    bears the project UUID as the file part [xml_submission_file]. *)
Definition well_addressed (config : Config) (r : Request) : Prop :=
  url r = submissions_endpoint /\
  req_headers r = auth_headers config /\
  exists root,
    identified_by (project_uuid config) root /\
    files r = [mkFilePart "xml_submission_file" "data.xml" (tostring root)
                          "text/xml"].

(** Membership of a field in an explicit list of columns. *)
Ltac in_columns :=
  let f := fresh "f" in
  let Hf := fresh "Hf" in
  intros f Hf; simpl in Hf;
  repeat (destruct Hf as [<- | Hf]; [simpl; tauto | ]); contradiction.

(* ===================================================================== *)
(** ** More sample data                                                   *)
(* ===================================================================== *)

(** The sample survey with its configuration file in place. *)
Definition configured (config : Config) (files : string -> option DataFrame)
  : World :=
  mkWorld (fun n => mkDate 2024 3 (1 + n)) 0
          (fun p => if String.eqb p "config.json" then Ok config
                    else no_config)
          files
          (fun n _ => if Nat.eqb n 0 then Ok (mkResponse 201 "created")
                      else Raise (RequestException "connection refused"))
          [] [] [].

(** The survey without the table that lacks a column. *)
Definition tidy_config : Config :=
  with_children [mkChildSource "Members" "members.xlsx";
                 mkChildSource "Guests" "guests.xlsx"] survey_config.

Definition tidy_world : World := configured tidy_config survey_files.

(** The survey with no spreadsheet at all. *)
Definition unplugged_world : World := configured survey_config (fun _ => None).

(** A configuration that names a key column no table has. *)
Definition misnamed_config : Config :=
  mkConfig "households.xlsx" "HID" "HID" "uuid-1"
    [mkChildSource "Members" "members.xlsx"] "secret".

Definition misnamed_world : World := configured misnamed_config survey_files.

(** A survey whose second household has a lodger and no other member: the
    lodgers' table has no [Relationship] column. *)
Definition households_b : DataFrame :=
  mkDataFrame ["FID"; "HName"; "HSex"; "HAge"; "HLocation"]
    [[VInt 1; VStr "Doe"; VStr "M"; VInt 40; VStr "X"];
     [VInt 3; VStr "Roe"; VStr "F"; VInt 70; VStr "Z"]].

Definition lodgers_b : DataFrame :=
  mkDataFrame
    ["FID"; "Individual_FullName"; "Individual_Sex"; "Individual_Age"]
    [[VInt 1; VStr "Cy Roe"; VStr "M"; VInt 52];
     [VInt 3; VStr "Di Roe"; VStr "F"; VInt 19]].

Definition lodger_files (p : string) : option DataFrame :=
  if String.eqb p "households.xlsx" then Some households_b
  else if String.eqb p "members.xlsx" then Some members
  else if String.eqb p "lodgers.xlsx" then Some lodgers_b
  else None.

Definition lodger_world : World := configured survey_config lodger_files.

(* ********************************************************************* *)
(** * Part II: lemmas and theorems                                       *)
(* ********************************************************************* *)

(* ===================================================================== *)
(** ** What the builder computes                                          *)
(* ===================================================================== *)

Lemma add_Individual_eq (root : Element) (s : Series) (w : World) :
  add_Individual root s w =
  (match first_missing child_fields s with
   | Some k => Raise (KeyError k)
   | None => Ok (append root (Individual_of s))
   end, w).
Proof.
  unfold add_Individual, first_missing, Individual_of, fields_of, getitem,
    bind, missing, cell, child_fields.
  cbn.
  repeat (case_lookup; [ | reflexivity ]).
  reflexivity.
Qed.

Lemma append_all (t : string) (a : list (string * string)) (x : option string)
    (cs l : list Element) :
  fold_left append l (mkElement t a x cs) = mkElement t a x (cs ++ l).
Proof.
  revert cs; induction l as [ | e l IH]; intros cs; cbn.
  - now rewrite app_nil_r.
  - rewrite IH, <- app_assoc. reflexivity.
Qed.

Lemma for_fold_Individuals (rows : list Series) (root : Element) (w : World) :
  for_fold rows add_Individual root w =
  (match Individuals rows with
   | Ok l => Ok (fold_left append l root)
   | Raise e => Raise e
   end, w).
Proof.
  revert root; induction rows as [ | s rows IH]; intros root;
    cbn [for_fold Individuals].
  - reflexivity.
  - unfold bind. rewrite add_Individual_eq.
    destruct (first_missing child_fields s); [reflexivity | ].
    rewrite IH. destruct (Individuals rows); reflexivity.
Qed.

(** The builder looks at the calendar once and is otherwise the function
    [built] of its arguments. *)
Lemma process_submission_eq (row : Series) (matching_rows : DataFrame)
    (project_uuid : string) (w : World) :
  process_submission row matching_rows project_uuid w =
  (built (calendar w (looks w)) row matching_rows project_uuid,
   with_looks (S (looks w)) w).
Proof.
  unfold process_submission, built, first_missing, getitem, bind, date_today,
    missing, parent_fields.
  cbn.
  repeat (case_lookup; [ | reflexivity ]).
  rewrite for_fold_Individuals.
  destruct (Individuals (iterrows matching_rows)); [ | reflexivity ].
  unfold raise, ret, document, household_of, fields_of, cell, parent_fields.
  cbn. rewrite E, E0, E1, E2, E3. cbn.
  rewrite append_all. reflexivity.
Qed.

Lemma missing_true (s : Series) (f : string) :
  missing s f = true <-> lookup f s = None.
Proof. unfold missing. destruct (lookup f s); split; congruence. Qed.

Lemma first_missing_None (fs : list string) (s : Series) :
  first_missing fs s = None <-> complete fs s.
Proof.
  unfold first_missing, complete. induction fs as [ | f fs IH]; cbn.
  - split; [intros _ f [] | reflexivity].
  - destruct (missing s f) eqn:E.
    + split; [discriminate | ].
      intros H. apply missing_true in E. now destruct (H f (or_introl eq_refl)).
    + rewrite IH. split.
      * intros H g [<- | Hg]; [ | now apply H].
        intros Hn. apply missing_true in Hn. congruence.
      * intros H g Hg. apply H. now right.
Qed.

Lemma first_missing_Some (fs : list string) (s : Series) (k : string) :
  first_missing fs s = Some k -> In k fs /\ lookup k s = None.
Proof.
  unfold first_missing. intros H. apply find_some in H.
  destruct H as [H1 H2]. now rewrite missing_true in H2.
Qed.

Lemma first_missing_exists (fs : list string) (s : Series) (f : string) :
  In f fs -> lookup f s = None -> exists k, first_missing fs s = Some k.
Proof.
  intros Hin Hf. destruct (first_missing fs s) as [k | ] eqn:E.
  - now exists k.
  - apply first_missing_None in E. now destruct (E f Hin).
Qed.

Lemma Individuals_complete (rows : list Series) :
  Forall (complete child_fields) rows ->
  Individuals rows = Ok (map Individual_of rows).
Proof.
  induction 1 as [ | s rows Hs _ IH]; cbn [Individuals map].
  - reflexivity.
  - apply first_missing_None in Hs. now rewrite Hs, IH.
Qed.

Lemma Individuals_incomplete (rows : list Series) (s : Series) (f : string) :
  In s rows -> In f child_fields -> lookup f s = None ->
  exists k s', Individuals rows = Raise (KeyError k) /\
               In k child_fields /\ In s' rows /\ lookup k s' = None.
Proof.
  intros Hs Hf Hn. induction rows as [ | r rows IH]; [destruct Hs | ].
  cbn [Individuals].
  destruct (first_missing child_fields r) as [k | ] eqn:E.
  - apply first_missing_Some in E. destruct E as [E1 E2].
    exists k, r. repeat split; auto. now left.
  - destruct Hs as [-> | Hs].
    + destruct (first_missing_exists child_fields s f Hf Hn) as [k Hk].
      congruence.
    + destruct (IH Hs) as (k & s' & H1 & H2 & H3 & H4).
      exists k, s'. rewrite H1. repeat split; auto. now right.
Qed.

Lemma same_on_cell (fs : list string) (s s' : Series) (f : string) :
  same_on fs s s' -> In f fs -> cell s f = cell s' f.
Proof. intros H Hf. unfold cell. now rewrite (H f Hf). Qed.

Lemma same_on_fields_of (fs : list string) (s s' : Series) :
  same_on fs s s' -> fields_of fs s = fields_of fs s'.
Proof.
  intros H. unfold fields_of. apply map_ext_in. intros f Hf.
  now rewrite (same_on_cell fs s s' f H Hf).
Qed.

Lemma same_on_complete (fs : list string) (s s' : Series) :
  same_on fs s s' -> complete fs s -> complete fs s'.
Proof. intros H Hc f Hf. rewrite <- (H f Hf). now apply Hc. Qed.

(** A row of a frame that has a field at all comes from a frame with at
    least one column. *)
Lemma complete_row_columns (df : DataFrame) (s : Series) :
  In s (iterrows df) -> complete child_fields s -> columns df <> [].
Proof.
  unfold iterrows. intros Hs Hc Hcols. apply in_map_iff in Hs.
  destruct Hs as (r & <- & _). rewrite Hcols in Hc.
  apply (Hc "FID"); [now left | reflexivity].
Qed.

Lemma length_iterrows (df : DataFrame) : length (iterrows df) = len df.
Proof. unfold iterrows, len. apply length_map. Qed.

(** With complete child rows, [df.empty] says whether there is no row. *)
Lemma empty_complete (df : DataFrame) :
  Forall (complete child_fields) (iterrows df) ->
  empty df = Nat.eqb (len df) 0.
Proof.
  intros H. unfold empty. fold (len df).
  destruct (len df) eqn:En; [now rewrite orb_true_r | ].
  rewrite orb_false_r. rewrite <- length_iterrows in En.
  destruct (iterrows df) as [ | s rows] eqn:Er; [discriminate | ].
  assert (Hc : columns df <> []).
  { apply (complete_row_columns df s).
    - rewrite Er. now left.
    - now inversion H. }
  destruct (columns df); [congruence | reflexivity].
Qed.

Lemma findall_Individual (d u : string) (row : Series) (df : DataFrame)
    (rows : list Series) :
  findall (document d row df u (map Individual_of rows)) "Individual"
  = map Individual_of rows.
Proof.
  unfold findall, document. cbn [children].
  rewrite filter_app. cbn [filter tag leaf household_of]. cbn.
  rewrite filter_app. cbn. rewrite app_nil_r.
  induction rows as [ | s rows IH]; cbn; [reflexivity | now rewrite IH].
Qed.

Lemma find_household (d u : string) (row : Series) (df : DataFrame)
    (l : list Element) :
  find (document d row df u l) "household" = Some (household_of row df).
Proof. reflexivity. Qed.

Lemma built_complete (today : Date) (row : Series) (df : DataFrame)
    (u : string) :
  complete parent_fields row ->
  Forall (complete child_fields) (iterrows df) ->
  built today row df u =
  Ok (document (strftime today) row df u (map Individual_of (iterrows df))).
Proof.
  intros Hp Hc. unfold built.
  apply first_missing_None in Hp. rewrite Hp.
  now rewrite (Individuals_complete _ Hc).
Qed.

Lemma findtext_household (row : Series) (df : DataFrame) :
  findtext (household_of row df) "other_members"
    = Some (if negb (empty df) then "Yes" else "No") /\
  findtext (household_of row df) "HHSize"
    = Some (str_int (Z.of_nat (len df + 1))).
Proof. split; reflexivity. Qed.

Lemma findtext_dates (d u : string) (row : Series) (df : DataFrame)
    (l : list Element) :
  findtext (document d row df u l) "start" = Some d /\
  findtext (document d row df u l) "end" = Some d /\
  findtext (document d row df u l) "today" = Some d.
Proof. repeat split; reflexivity. Qed.

Lemma find_meta (d u : string) (row : Series) (df : DataFrame)
    (rows : list Series) :
  find (document d row df u (map Individual_of rows)) "meta"
  = Some (mkElement "meta" [] None [leaf "instanceID" u]).
Proof.
  unfold find, document. cbn [children app].
  cbn -[household_of Individual_of].
  induction rows as [ | s rows IH]; [reflexivity | exact IH].
Qed.

(* ===================================================================== *)
(** ** Properties of the document builder                                 *)
(* ===================================================================== *)

(** C1. Household size and the other-members flag.  When the parent row
    and the matched child rows carry the fields the builder reads, a
    document is built; with no matched child its household has HHSize "1"
    and other_members "No" and there is no Individual element; with N >= 1
    matched children HHSize is the text of N+1, other_members is "Yes", and
    the Individual elements are exactly N, one per matched child, in the
    order of the children. *)
Theorem household_size_and_members (row : Series) (matching_rows : DataFrame)
    (project_uuid : string) (w : World) :
  complete parent_fields row ->
  Forall (complete child_fields) (iterrows matching_rows) ->
  exists root household,
    fst (process_submission row matching_rows project_uuid w) = Ok root /\
    find root "household" = Some household /\
    (len matching_rows = 0 ->
       findtext household "HHSize" = Some "1" /\
       findtext household "other_members" = Some "No" /\
       findall root "Individual" = []) /\
    (1 <= len matching_rows ->
       findtext household "HHSize"
         = Some (str_int (Z.of_nat (len matching_rows + 1))) /\
       findtext household "other_members" = Some "Yes" /\
       length (findall root "Individual") = len matching_rows /\
       findall root "Individual"
         = map Individual_of (iterrows matching_rows)).
Proof.
  intros Hp Hc.
  rewrite process_submission_eq. cbn [fst].
  rewrite (built_complete _ _ _ _ Hp Hc).
  eexists; eexists. split; [reflexivity | ].
  split; [apply find_household | ].
  destruct (findtext_household row matching_rows) as [Ho Hs].
  rewrite Ho, Hs, findall_Individual, (empty_complete _ Hc).
  split.
  - intros H0. rewrite H0. cbn.
    rewrite <- length_iterrows in H0.
    destruct (iterrows matching_rows); [auto | discriminate].
  - intros H1. split; [reflexivity | ].
    split; [ | split; [ | reflexivity]].
    + destruct (len matching_rows); [lia | reflexivity].
    + now rewrite length_map, length_iterrows.
Qed.

Lemma household_size_and_members_witness :
  exists root household,
    fst (process_submission doe_row doe_children "uuid-1" quiet_world)
      = Ok root /\
    find root "household" = Some household /\
    (len doe_children = 0 ->
       findtext household "HHSize" = Some "1" /\
       findtext household "other_members" = Some "No" /\
       findall root "Individual" = []) /\
    (1 <= len doe_children ->
       findtext household "HHSize"
         = Some (str_int (Z.of_nat (len doe_children + 1))) /\
       findtext household "other_members" = Some "Yes" /\
       length (findall root "Individual") = len doe_children /\
       findall root "Individual" = map Individual_of (iterrows doe_children)).
Proof.
  apply household_size_and_members.
  - apply first_missing_None. reflexivity.
  - repeat constructor; apply first_missing_None; reflexivity.
Defined.

Lemma is_digit_digit (n : nat) : is_digit (digit n) = true.
Proof.
  unfold is_digit, digit.
  assert (H : n mod 10 < 10) by (apply Nat.mod_upper_bound; lia).
  rewrite nat_ascii_embedding by lia.
  apply andb_true_iff. split; apply Nat.leb_le; lia.
Qed.

(** The year field is Python's decimal rendering of a four-digit year. *)
Lemma pad4_decimal (y : nat) :
  (1000 <= Z.of_nat y <= 9999)%Z -> pad4 y = str_int (Z.of_nat y).
Proof.
  intros H.
  assert (A : forallb (fun y => String.eqb (pad4 y) (str_int (Z.of_nat y)))
                      (seq (10 * 100) (90 * 100)) = true)
    by (vm_compute; reflexivity).
  rewrite forallb_forall in A. apply String.eqb_eq, A, in_seq. lia.
Qed.

(** The month and day fields are the decimal rendering, with a leading zero
    below ten. *)
Lemma pad2_decimal (n : nat) :
  n <= 99 ->
  pad2 n = if Nat.ltb n 10 then String "0" (str_int (Z.of_nat n))
           else str_int (Z.of_nat n).
Proof.
  intros H.
  assert (A : forallb (fun n => String.eqb (pad2 n)
                                  (if Nat.ltb n 10
                                   then String "0" (str_int (Z.of_nat n))
                                   else str_int (Z.of_nat n)))
                      (seq 0 100) = true)
    by (vm_compute; reflexivity).
  rewrite forallb_forall in A. apply String.eqb_eq, A, in_seq. lia.
Qed.

Lemma DataFrame_of_records_rectangular (records : list dict) :
  rectangular (DataFrame_of_records records).
Proof.
  unfold rectangular, DataFrame_of_records. cbn [columns values].
  apply Forall_forall. intros r Hr. apply in_map_iff in Hr.
  destruct Hr as (d & <- & _). apply length_map.
Qed.

(** C3. One date per document.  Each call of the builder looks at the
    calendar exactly once, whatever the calendar shows at later looks, and
    the start, end and today elements of the document it builds all carry
    that one date, written as four digits, a dash, two digits, a dash and
    two digits. *)
Theorem dates_agree (row : Series) (matching_rows : DataFrame)
    (project_uuid : string) (w : World) :
  complete parent_fields row ->
  Forall (complete child_fields) (iterrows matching_rows) ->
  let today := calendar w (looks w) in
  exists root,
    fst (process_submission row matching_rows project_uuid w) = Ok root /\
    looks (snd (process_submission row matching_rows project_uuid w))
      = S (looks w) /\
    findtext root "start" = Some (strftime today) /\
    findtext root "end" = Some (strftime today) /\
    findtext root "today" = Some (strftime today) /\
    String.length (strftime today) = 10 /\
    String.get 4 (strftime today) = Some "-"%char /\
    String.get 7 (strftime today) = Some "-"%char /\
    Forall (fun i => exists c, String.get i (strftime today) = Some c /\
                               is_digit c = true)
           [0; 1; 2; 3; 5; 6; 8; 9].
Proof.
  intros Hp Hc today.
  rewrite process_submission_eq. cbn [fst snd].
  rewrite (built_complete _ _ _ _ Hp Hc).
  eexists. split; [reflexivity | ].
  split; [reflexivity | ].
  destruct (findtext_dates (strftime today) project_uuid row matching_rows
              (map Individual_of (iterrows matching_rows))) as (H1 & H2 & H3).
  do 6 (split; [assumption || reflexivity | ]).
  repeat constructor; eexists; (split; [reflexivity | apply is_digit_digit]).
Qed.

Lemma dates_agree_witness :
  exists root,
    fst (process_submission doe_row doe_children "uuid-1" quiet_world)
      = Ok root /\
    looks (snd (process_submission doe_row doe_children "uuid-1" quiet_world))
      = 1 /\
    findtext root "start" = Some "2024-03-01" /\
    findtext root "end" = Some "2024-03-01" /\
    findtext root "today" = Some "2024-03-01" /\
    String.length "2024-03-01" = 10 /\
    String.get 4 "2024-03-01" = Some "-"%char /\
    String.get 7 "2024-03-01" = Some "-"%char /\
    Forall (fun i => exists c, String.get i "2024-03-01" = Some c /\
                               is_digit c = true)
           [0; 1; 2; 3; 5; 6; 8; 9].
Proof.
  apply (dates_agree doe_row doe_children "uuid-1" quiet_world).
  - apply first_missing_None. reflexivity.
  - repeat constructor; apply first_missing_None; reflexivity.
Defined.

(** C8. The builder is deterministic and does no input or output.  Two
    calls with the same parent row, matched children and project UUID, made
    in any two worlds whose calendars show the same date at the moment of
    the call, return the same result, hence the same bytes once serialized;
    and a call sends nothing, logs nothing, queues nothing and touches no
    file: it leaves the world as it was but for the one look at the
    calendar. *)
Theorem builder_deterministic (row : Series) (matching_rows : DataFrame)
    (project_uuid : string) (w1 w2 : World) :
  calendar w1 (looks w1) = calendar w2 (looks w2) ->
  fst (process_submission row matching_rows project_uuid w1)
    = fst (process_submission row matching_rows project_uuid w2) /\
  (forall root1 root2,
     fst (process_submission row matching_rows project_uuid w1) = Ok root1 ->
     fst (process_submission row matching_rows project_uuid w2) = Ok root2 ->
     tostring root1 = tostring root2) /\
  snd (process_submission row matching_rows project_uuid w1)
    = with_looks (S (looks w1)) w1.
Proof.
  intros Hd. rewrite !process_submission_eq. cbn [fst snd]. rewrite Hd.
  repeat split. intros root1 root2 H1 H2. congruence.
Qed.

Lemma builder_deterministic_witness :
  fst (process_submission doe_row doe_children "uuid-1" quiet_world)
    = fst (process_submission doe_row doe_children "uuid-1" busy_world) /\
  (forall root1 root2,
     fst (process_submission doe_row doe_children "uuid-1" quiet_world)
       = Ok root1 ->
     fst (process_submission doe_row doe_children "uuid-1" busy_world)
       = Ok root2 ->
     tostring root1 = tostring root2) /\
  snd (process_submission doe_row doe_children "uuid-1" quiet_world)
    = with_looks 1 quiet_world.
Proof.
  apply (builder_deterministic doe_row doe_children "uuid-1"
           quiet_world busy_world).
  reflexivity.
Defined.

Lemma Forall2_same_on_Individuals (rows rows' : list Series) :
  Forall2 (same_on child_fields) rows rows' ->
  map Individual_of rows = map Individual_of rows'.
Proof.
  induction 1 as [ | s s' rows rows' Hs _ IH]; cbn [map]; [reflexivity | ].
  unfold Individual_of at 1 3.
  now rewrite (same_on_fields_of _ _ _ Hs), IH.
Qed.

Lemma Forall2_same_on_complete (rows rows' : list Series) :
  Forall2 (same_on child_fields) rows rows' ->
  Forall (complete child_fields) rows ->
  Forall (complete child_fields) rows'.
Proof.
  induction 1 as [ | s s' rows rows' Hs _ IH]; intros Hc; constructor.
  - inversion Hc; subst. now apply (same_on_complete _ s).
  - inversion Hc; subst. now apply IH.
Qed.

Lemma tags_Individuals (rows : list Series) :
  map tag (map Individual_of rows) = repeat "Individual" (length rows).
Proof.
  induction rows as [ | s rows IH]; cbn; [reflexivity | now rewrite IH].
Qed.

(** C10. Only the fixed fields reach the document.  The household section
    of a built document holds the five parent fields (followed by the two
    computed entries other_members and HHSize) and every Individual section
    holds the five child fields, each with the text of the row's cell;
    nothing else of the rows is read: rows that agree on these fields, with
    whatever other fields beside them, yield the same document. *)
Theorem only_fixed_fields (row row' : Series)
    (matching_rows matching_rows' : DataFrame) (project_uuid : string)
    (w : World) :
  complete parent_fields row ->
  Forall (complete child_fields) (iterrows matching_rows) ->
  same_on parent_fields row row' ->
  Forall2 (same_on child_fields) (iterrows matching_rows)
          (iterrows matching_rows') ->
  exists root household,
    fst (process_submission row matching_rows project_uuid w) = Ok root /\
    fst (process_submission row' matching_rows' project_uuid w) = Ok root /\
    find root "household" = Some household /\
    map tag (children root)
      = ["start"; "end"; "today"; "intro"; "household"]
        ++ repeat "Individual" (len matching_rows) ++ ["meta"] /\
    map tag (children household)
      = ["FID"; "HName"; "HSex"; "HAge"; "HLocation"; "other_members";
         "HHSize"] /\
    firstn 5 (children household) = fields_of parent_fields row /\
    Forall2 (fun individual s =>
               map tag (children individual)
                 = ["FID"; "Individual_FullName"; "Individual_Sex";
                    "Individual_Age"; "Relationship"] /\
               children individual = fields_of child_fields s)
            (findall root "Individual") (iterrows matching_rows).
Proof.
  intros Hp Hc Hsp Hsc.
  assert (Hc' := Forall2_same_on_complete _ _ Hsc Hc).
  assert (Hp' := same_on_complete _ _ _ Hsp Hp).
  assert (Hlen : len matching_rows' = len matching_rows).
  { rewrite <- !length_iterrows. symmetry. now apply Forall2_length in Hsc. }
  rewrite !process_submission_eq. cbn [fst].
  rewrite (built_complete _ _ _ _ Hp Hc), (built_complete _ _ _ _ Hp' Hc').
  eexists; eexists. split; [reflexivity | ].
  split.
  { f_equal. unfold document, household_of.
    rewrite <- (Forall2_same_on_Individuals _ _ Hsc).
    rewrite <- (same_on_fields_of _ _ _ Hsp).
    now rewrite (empty_complete _ Hc), (empty_complete _ Hc'), Hlen. }
  split; [apply find_household | ].
  rewrite findall_Individual.
  split.
  { unfold document. cbn [children]. rewrite !map_app, tags_Individuals.
    now rewrite length_iterrows. }
  split; [reflexivity | ].
  split; [reflexivity | ].
  clear. induction (iterrows matching_rows) as [ | s rows IH]; cbn [map].
  - constructor.
  - constructor; [split; reflexivity | exact IH].
Qed.

Lemma only_fixed_fields_witness :
  exists root household,
    fst (process_submission doe_row doe_children "uuid-1" quiet_world)
      = Ok root /\
    fst (process_submission doe_row_wide doe_children_wide "uuid-1" quiet_world)
      = Ok root /\
    find root "household" = Some household /\
    map tag (children root)
      = ["start"; "end"; "today"; "intro"; "household"]
        ++ repeat "Individual" (len doe_children) ++ ["meta"] /\
    map tag (children household)
      = ["FID"; "HName"; "HSex"; "HAge"; "HLocation"; "other_members";
         "HHSize"] /\
    firstn 5 (children household) = fields_of parent_fields doe_row /\
    Forall2 (fun individual s =>
               map tag (children individual)
                 = ["FID"; "Individual_FullName"; "Individual_Sex";
                    "Individual_Age"; "Relationship"] /\
               children individual = fields_of child_fields s)
            (findall root "Individual") (iterrows doe_children).
Proof.
  apply only_fixed_fields.
  - apply first_missing_None. reflexivity.
  - repeat constructor; apply first_missing_None; reflexivity.
  - intros f Hf. simpl in Hf.
    repeat (destruct Hf as [<- | Hf]; [reflexivity | ]). contradiction.
  - repeat constructor; intros f Hf; simpl in Hf;
      repeat (destruct Hf as [<- | Hf]; [reflexivity | ]); contradiction.
Defined.

(* ===================================================================== *)
(** ** What the matcher computes                                          *)
(* ===================================================================== *)

Lemma mem_string_In (k : string) (l : list string) :
  mem_string k l = true <-> In k l.
Proof.
  unfold mem_string. rewrite existsb_exists. split.
  - intros (x & Hx & E). apply String.eqb_eq in E. now subst.
  - intros H. exists k. split; [assumption | apply String.eqb_refl].
Qed.

Lemma py_eq_true (a b : Value) :
  py_eq a b = true <->
  (exists s, a = VStr s /\ b = VStr s) \/
  (exists z, number a = Some z /\ number b = Some z).
Proof.
  destruct a as [x | s | c | ], b as [y | t | d | ]; cbn; split;
    try discriminate;
    try (intros [(s0 & H1 & H2) | (z & H1 & H2)]; discriminate);
    intros H.
  - apply Z.eqb_eq in H. subst. right. now exists y.
  - destruct H as [(s0 & H1 & H2) | (z & H1 & H2)]; [discriminate | ].
    apply Z.eqb_eq. congruence.
  - apply Z.eqb_eq in H. subst. right. now exists (Z_of_bool d).
  - destruct H as [(s0 & H1 & H2) | (z & H1 & H2)]; [discriminate | ].
    apply Z.eqb_eq. congruence.
  - apply String.eqb_eq in H. subst. left. now exists t.
  - destruct H as [(s0 & H1 & H2) | (z & H1 & H2)]; [ | discriminate].
    apply String.eqb_eq. congruence.
  - apply Z.eqb_eq in H. right. exists y. now rewrite H.
  - destruct H as [(s0 & H1 & H2) | (z & H1 & H2)]; [discriminate | ].
    apply Z.eqb_eq. congruence.
  - apply Bool.eqb_prop in H. subst. right. now exists (Z_of_bool d).
  - destruct H as [(s0 & H1 & H2) | (z & H1 & H2)]; [discriminate | ].
    destruct c, d; cbn in *; congruence.
Qed.

Lemma select_mask (cols : list string) (fk : string) (k : Value)
    (rows : list (list Value)) :
  map (fun r => combine cols r)
      (select (map (fun v => py_eq v k)
                   (map (fun r => match lookup fk (combine cols r) with
                                  | Some v => v
                                  | None => VNaN
                                  end) rows))
              rows)
  = filter (fun d => py_eq (cell d fk) k) (map (fun r => combine cols r) rows).
Proof.
  induction rows as [ | r rows IH]; cbn [map select filter]; [reflexivity | ].
  unfold cell at 1.
  destruct (py_eq _ k); cbn [map]; now rewrite IH.
Qed.

Lemma extend_from_child_eq (config : Config) (parent_id : Value)
    (acc : list dict) (src : ChildSource) (w : World) :
  extend_from_child config parent_id acc src w =
  match excel_files w (path src) with
  | None => (Ok acc, with_log (log w ++ [warning_for src]) w)
  | Some df =>
      if mem_string (child_id_column config) (columns df) then
        (Ok (acc ++ matched py_eq (child_id_column config) parent_id df), w)
      else (Raise (KeyError (child_id_column config)), w)
  end.
Proof.
  unfold extend_from_child, bind, isfile, read_excel, getcolumn.
  destruct (excel_files w (path src)) as [df | ] eqn:E.
  - rewrite E.
    destruct (mem_string (child_id_column config) (columns df));
      [ | reflexivity].
    unfold ret, matched, to_dict_records, getmask. cbn [columns values].
    now rewrite select_mask.
  - reflexivity.
Qed.

Lemma for_fold_app {X S} (l1 l2 : list X) (body : S -> X -> M S) (s : S)
    (w : World) :
  for_fold (l1 ++ l2) body s w =
  match for_fold l1 body s w with
  | (Ok s', w') => for_fold l2 body s' w'
  | (Raise e, w') => (Raise e, w')
  end.
Proof.
  revert s w. induction l1 as [ | x l1 IH]; intros s w; cbn [app for_fold].
  - reflexivity.
  - unfold bind.
    destruct (body s x w) as [[s' | e] w']; [apply IH | reflexivity].
Qed.

(** The matcher reads the files and writes the log: the files stay as they
    are and the log only grows. *)
Lemma matcher_frame (config : Config) (parent_id : Value)
    (l : list ChildSource) (acc : list dict) (w : World) :
  let r := for_fold l (extend_from_child config parent_id) acc w in
  excel_files (snd r) = excel_files w /\
  exists more, log (snd r) = log w ++ more.
Proof.
  revert acc w. induction l as [ | src l IH]; intros acc w; cbn [for_fold].
  - split; [reflexivity | exists []; now rewrite app_nil_r].
  - unfold bind. rewrite extend_from_child_eq.
    destruct (excel_files w (path src)) as [df | ] eqn:E.
    + destruct (mem_string (child_id_column config) (columns df)).
      * apply IH.
      * split; [reflexivity | exists []; now rewrite app_nil_r].
    + destruct (IH acc (with_log (log w ++ [warning_for src]) w))
        as [H1 (more & H2)].
      split; [exact H1 | ].
      exists (warning_for src :: more). rewrite H2. cbn [log with_log].
      now rewrite <- app_assoc.
Qed.

(** What the matcher returns depends on the world through its files only. *)
Lemma matcher_files_only (config : Config) (parent_id : Value)
    (l : list ChildSource) (acc : list dict) (w1 w2 : World) :
  excel_files w1 = excel_files w2 ->
  fst (for_fold l (extend_from_child config parent_id) acc w1)
  = fst (for_fold l (extend_from_child config parent_id) acc w2).
Proof.
  revert acc w1 w2. induction l as [ | src l IH]; intros acc w1 w2 Hf;
    cbn [for_fold]; [reflexivity | ].
  unfold bind. rewrite !extend_from_child_eq, <- Hf.
  destruct (excel_files w1 (path src)) as [df | ].
  - destruct (mem_string (child_id_column config) (columns df));
      [now apply IH | reflexivity].
  - apply IH. exact Hf.
Qed.

Lemma for_fold_matched (config : Config) (parent_id : Value)
    (l : list ChildSource) (acc : list dict) (w : World) :
  (forall src df, In src l -> excel_files w (path src) = Some df ->
                  In (child_id_column config) (columns df)) ->
  fst (for_fold l (extend_from_child config parent_id) acc w)
  = Ok (acc ++ flat_map
                 (fun src =>
                    match excel_files w (path src) with
                    | Some df => matched py_eq (child_id_column config)
                                         parent_id df
                    | None => []
                    end) l).
Proof.
  revert acc w. induction l as [ | src l IH]; intros acc w H;
    cbn [for_fold flat_map].
  - cbn. now rewrite app_nil_r.
  - unfold bind. rewrite extend_from_child_eq.
    destruct (excel_files w (path src)) as [df | ] eqn:E.
    + rewrite (proj2 (mem_string_In _ _) (H src df (or_introl eq_refl) E)).
      rewrite IH, <- app_assoc; [reflexivity | ].
      intros s d Hs. apply H. now right.
    + rewrite (matcher_files_only config parent_id l acc
                 (with_log (log w ++ [warning_for src]) w) w eq_refl).
      rewrite IH; [reflexivity | ].
      intros s d Hs. apply H. now right.
Qed.

Lemma matching_rows_data_eq (config : Config) (parent_id : Value) (w : World) :
  matching_rows_data config parent_id w
  = for_fold (child_data_paths config) (extend_from_child config parent_id)
             [] w.
Proof.
  unfold matching_rows_data.
  destruct (child_data_paths config); reflexivity.
Qed.

Lemma extend_from_child_with_children (l : list ChildSource) (config : Config)
    (parent_id : Value) :
  extend_from_child (with_children l config) parent_id
  = extend_from_child config parent_id.
Proof. reflexivity. Qed.

(* ===================================================================== *)
(** ** Properties of the matcher                                          *)
(* ===================================================================== *)

(** C4, as the code has it.  When every configured child table that exists
    has the foreign-key column, the matcher returns the rows whose
    foreign-key cell compares equal to the parent key under the table's own
    [==], table after table in configuration order and in each table's row
    order.  Under that comparison text equals the same text, a number
    equals the same number with a boolean counting as 1 or 0, text never
    equals a number, and a missing cell or key equals nothing; it is
    equality of values of one type whenever no boolean is compared and the
    parent key is not missing. *)
Theorem matcher_returns_equal_rows (config : Config) (parent_id : Value)
    (w : World) :
  (forall src df, In src (child_data_paths config) ->
                  excel_files w (path src) = Some df ->
                  In (child_id_column config) (columns df)) ->
  fst (matching_rows_data config parent_id w)
    = Ok (matched_all py_eq config parent_id w) /\
  (forall v, py_eq v parent_id = true <->
             (exists s, v = VStr s /\ parent_id = VStr s) \/
             (exists z, number v = Some z /\ number parent_id = Some z)) /\
  (forall v, is_bool v = false -> is_bool parent_id = false ->
             parent_id <> VNaN -> py_eq v parent_id = exact_eq v parent_id).
Proof.
  intros H. split; [ | split].
  - rewrite matching_rows_data_eq.
    now rewrite (for_fold_matched config parent_id _ [] w H).
  - intros v. apply py_eq_true.
  - intros v Hv Hk Hn.
    destruct v, parent_id; try reflexivity; try discriminate; congruence.
Qed.

Lemma matcher_returns_equal_rows_witness :
  fst (matching_rows_data survey_config (VInt 1) survey_world)
    = Ok (matched_all py_eq survey_config (VInt 1) survey_world) /\
  (forall v, py_eq v (VInt 1) = true <->
             (exists s, v = VStr s /\ VInt 1 = VStr s) \/
             (exists z, number v = Some z /\ number (VInt 1) = Some z)) /\
  (forall v, is_bool v = false -> is_bool (VInt 1) = false ->
             VInt 1 <> VNaN -> py_eq v (VInt 1) = exact_eq v (VInt 1)).
Proof.
  apply matcher_returns_equal_rows.
  intros src df Hin E. simpl in Hin.
  destruct Hin as [<- | [<- | [<- | []]]]; vm_compute in E;
    try discriminate; injection E as <-; simpl; tauto.
Defined.

(** C4, as stated, fails.  With the boolean parent key [True], the matcher
    also returns the child row whose key is the integer 1, which equality
    without coercion between types leaves out; and with a missing parent
    key it returns no row, not even the row whose key is missing too. *)
Lemma matcher_exact_equality_counterexample :
  let config := with_children [mkChildSource "Members" "members.xlsx"]
                              survey_config in
  let records := to_dict_records coded_members in
  fst (matching_rows_data config (VBool true) coded_world)
    = Ok (firstn 2 records) /\
  matched_all exact_eq config (VBool true) coded_world
    = firstn 1 (skipn 1 records) /\
  fst (matching_rows_data config (VBool true) coded_world)
    <> Ok (matched_all exact_eq config (VBool true) coded_world) /\
  fst (matching_rows_data config VNaN coded_world) = Ok [] /\
  matched_all exact_eq config VNaN coded_world = skipn 2 records.
Proof.
  cbv zeta. repeat split; try reflexivity.
  vm_compute. discriminate.
Qed.

(** C5. A missing child table is skipped with a warning.  When the file of
    a configured child table does not exist, the step for that table logs
    the warning that names the table, adds no record and does not raise,
    and the loop goes on with the remaining tables; the records the matcher
    returns are those it returns with the table left out of the
    configuration, and the warning is in the log whenever the tables before
    it were read without an error. *)
Theorem missing_child_source_skipped (config : Config) (parent_id : Value)
    (src : ChildSource) (w : World) :
  excel_files w (path src) = None ->
  (forall acc,
     extend_from_child config parent_id acc src w
       = (Ok acc, with_log (log w ++ [warning_for src]) w)) /\
  (forall acc rest,
     for_fold (src :: rest) (extend_from_child config parent_id) acc w
       = for_fold rest (extend_from_child config parent_id) acc
                  (with_log (log w ++ [warning_for src]) w)) /\
  (forall pre post,
     child_data_paths config = pre ++ src :: post ->
     fst (matching_rows_data config parent_id w)
       = fst (matching_rows_data (with_children (pre ++ post) config)
                                 parent_id w) /\
     ((exists rows,
         fst (matching_rows_data (with_children pre config) parent_id w)
           = Ok rows) ->
      In (warning_for src)
         (log (snd (matching_rows_data config parent_id w))))).
Proof.
  intros E.
  assert (Hstep : forall acc w',
             excel_files w' = excel_files w ->
             extend_from_child config parent_id acc src w'
               = (Ok acc, with_log (log w' ++ [warning_for src]) w')).
  { intros acc w' Hw. rewrite extend_from_child_eq, Hw, E. reflexivity. }
  split; [intros acc; now apply Hstep | ].
  split.
  { intros acc rest. cbn [for_fold]. unfold bind.
    now rewrite (Hstep acc w eq_refl). }
  intros pre post Hcfg.
  rewrite !matching_rows_data_eq. cbn [child_data_paths with_children].
  rewrite !extend_from_child_with_children, Hcfg.
  rewrite (for_fold_app pre (src :: post)), (for_fold_app pre post).
  destruct (matcher_frame config parent_id pre [] w) as [Hf (more & Hl)].
  destruct (for_fold pre (extend_from_child config parent_id) [] w)
    as [[acc | e] w1] eqn:Epre; cbn [fst snd] in *.
  - cbn [for_fold]. unfold bind. rewrite (Hstep acc w1 Hf).
    split.
    + apply matcher_files_only. reflexivity.
    + intros _.
      destruct (matcher_frame config parent_id post acc
                  (with_log (log w1 ++ [warning_for src]) w1))
        as [_ (more' & Hl')].
      rewrite Hl'. cbn [log with_log].
      apply in_or_app. left. apply in_or_app. right. now left.
  - split; [reflexivity | ]. intros (rows & Hr). discriminate.
Qed.

Lemma missing_child_source_skipped_witness :
  In (warning_for (mkChildSource "Guests" "guests.xlsx"))
     (log (snd (matching_rows_data survey_config (VInt 1) survey_world))) /\
  fst (matching_rows_data survey_config (VInt 1) survey_world)
    = fst (matching_rows_data
             (with_children [mkChildSource "Members" "members.xlsx";
                             mkChildSource "Lodgers" "lodgers.xlsx"]
                            survey_config)
             (VInt 1) survey_world).
Proof.
  destruct (missing_child_source_skipped survey_config (VInt 1)
              (mkChildSource "Guests" "guests.xlsx") survey_world eq_refl)
    as (_ & _ & H).
  destruct (H [mkChildSource "Members" "members.xlsx"]
              [mkChildSource "Lodgers" "lodgers.xlsx"] eq_refl) as [H1 H2].
  split; [ | exact H1].
  apply H2. eexists. vm_compute. reflexivity.
Defined.

(* ===================================================================== *)
(** ** Properties of the dispatcher                                       *)
(* ===================================================================== *)

Lemma post_submission_eq (root : Element) (endpoint : string)
    (headers : list (string * string)) (w : World) :
  let r := request_of (mkTask root endpoint headers) in
  post_submission root endpoint headers w =
  (Ok tt,
   with_log (log w ++ [log_line (remote w (length (sent w)) r)])
            (with_sent (sent w ++ [r]) w)).
Proof.
  unfold post_submission, try_except, bind, requests_post, request_of.
  cbn [task_root task_endpoint task_headers].
  destruct (remote w (length (sent w)) _) as [response | e]; reflexivity.
Qed.

Lemma drain_eq (tasks : list Task) (w : World) :
  sent (drain tasks w) = sent w ++ map request_of tasks /\
  length (log (drain tasks w)) = length (log w) + length tasks /\
  pool (drain tasks w) = pool w.
Proof.
  unfold drain. revert w.
  induction tasks as [ | t tasks IH]; intros w; cbn [fold_left map length].
  - rewrite app_nil_r. repeat split. lia.
  - destruct (IH (run_task t w)) as (H1 & H2 & H3).
    rewrite H1, H2, H3. unfold run_task. rewrite post_submission_eq.
    cbn [snd sent log pool with_log with_sent].
    rewrite <- app_assoc, length_app. cbn. repeat split. lia.
Qed.

(** C6. A failing dispatch stays inside the dispatcher.  Whatever the
    remote service does with the request, answer with any status or fail
    with an exception, [post_submission] returns normally, having sent the
    one request and written the one log line that tells the outcome.
    Hence a batch of dispatches, run one after the other with nothing to
    stop an exception between them, ends normally with every request sent,
    and so does the pool's run of its queue. *)
Theorem dispatch_never_raises (root : Element) (endpoint : string)
    (headers : list (string * string)) (tasks : list Task) (w : World) :
  let r := request_of (mkTask root endpoint headers) in
  let dispatch := fun t => post_submission (task_root t) (task_endpoint t)
                                           (task_headers t) in
  fst (post_submission root endpoint headers w) = Ok tt /\
  sent (snd (post_submission root endpoint headers w)) = sent w ++ [r] /\
  log (snd (post_submission root endpoint headers w))
    = log w ++ [log_line (remote w (length (sent w)) r)] /\
  fst (for_each tasks dispatch w) = Ok tt /\
  sent (snd (for_each tasks dispatch w)) = sent w ++ map request_of tasks /\
  sent (drain tasks w) = sent w ++ map request_of tasks /\
  length (log (drain tasks w)) = length (log w) + length tasks.
Proof.
  intros r dispatch.
  rewrite post_submission_eq. cbn [fst snd sent log with_log with_sent].
  repeat split.
  - revert w. induction tasks as [ | t tasks IH]; intros w; cbn [for_each].
    + reflexivity.
    + unfold bind, dispatch at 1. rewrite post_submission_eq. apply IH.
  - revert w. induction tasks as [ | t tasks IH]; intros w;
      cbn [for_each map].
    + cbn. now rewrite app_nil_r.
    + unfold bind, dispatch at 1. rewrite post_submission_eq, IH.
      cbn [sent with_log with_sent]. now rewrite <- app_assoc.
  - apply drain_eq.
  - apply drain_eq.
Qed.

(* ===================================================================== *)
(** ** Properties of the batch                                            *)
(* ===================================================================== *)

Lemma Individuals_Ok (rows : list Series) (l : list Element) :
  Individuals rows = Ok l -> l = map Individual_of rows.
Proof.
  revert l. induction rows as [ | s rows IH]; intros l; cbn [Individuals map].
  - congruence.
  - destruct (first_missing child_fields s); [discriminate | ].
    destruct (Individuals rows) as [l' | e]; [ | discriminate].
    intros [= <-]. now rewrite (IH l' eq_refl).
Qed.

Lemma built_identified (today : Date) (row : Series) (df : DataFrame)
    (u : string) (root : Element) :
  built today row df u = Ok root -> identified_by u root.
Proof.
  unfold built. destruct (first_missing parent_fields row); [discriminate | ].
  destruct (Individuals (iterrows df)) as [l | e] eqn:E; [ | discriminate].
  intros [= <-]. apply Individuals_Ok in E. subst l.
  split; [reflexivity | ].
  eexists. split; [apply find_meta | reflexivity].
Qed.

Lemma matcher_pool (config : Config) (parent_id : Value)
    (l : list ChildSource) (acc : list dict) (w : World) :
  pool (snd (for_fold l (extend_from_child config parent_id) acc w)) = pool w.
Proof.
  revert acc w. induction l as [ | src l IH]; intros acc w; cbn [for_fold].
  - reflexivity.
  - unfold bind. rewrite extend_from_child_eq.
    destruct (excel_files w (path src)) as [df | ].
    + destruct (mem_string (child_id_column config) (columns df));
        [apply IH | reflexivity].
    + now rewrite IH.
Qed.

(** One turn of the batch loop, step by step. *)
Lemma process_row_eq (config : Config) (endpoint : string)
    (headers : list (string * string)) (row : Series) (w : World) :
  process_row config endpoint headers row w =
  match lookup (parent_id_column config) row with
  | None => (Raise (KeyError (parent_id_column config)), w)
  | Some parent_id =>
      match matching_rows_data config parent_id w with
      | (Raise e, w1) => (Raise e, w1)
      | (Ok data, w1) =>
          match built (calendar w1 (looks w1)) row (DataFrame_of_records data)
                      (project_uuid config) with
          | Raise e => (Raise e, with_looks (S (looks w1)) w1)
          | Ok root =>
              (Ok tt,
               with_pool (pool w1 ++ [mkTask root endpoint headers])
                         (with_looks (S (looks w1)) w1))
          end
      end
  end.
Proof.
  unfold process_row, getitem.
  destruct (lookup (parent_id_column config) row) as [parent_id | ];
    [ | reflexivity].
  unfold bind at 1. unfold ret at 1. unfold bind at 1.
  destruct (matching_rows_data config parent_id w) as [[data | e] w1];
    [ | reflexivity].
  unfold bind. rewrite process_submission_eq.
  destruct (built _ row (DataFrame_of_records data) (project_uuid config));
    reflexivity.
Qed.

Lemma process_row_pool (config : Config) (endpoint : string)
    (headers : list (string * string)) (row : Series) (w : World) :
  pool (snd (process_row config endpoint headers row w)) = pool w \/
  exists root,
    identified_by (project_uuid config) root /\
    pool (snd (process_row config endpoint headers row w))
      = pool w ++ [mkTask root endpoint headers].
Proof.
  rewrite process_row_eq.
  destruct (lookup (parent_id_column config) row) as [parent_id | ];
    [ | now left].
  rewrite matching_rows_data_eq.
  pose proof (matcher_pool config parent_id (child_data_paths config) [] w)
    as Hp.
  destruct (for_fold (child_data_paths config)
              (extend_from_child config parent_id) [] w)
    as [[data | e] w1]; cbn [snd] in Hp; [ | now left].
  destruct (built _ row (DataFrame_of_records data) (project_uuid config))
    as [root | e] eqn:Eb.
  - right. exists root. split; [now apply built_identified in Eb | ].
    cbn [snd pool with_pool with_looks]. now rewrite Hp.
  - left. exact Hp.
Qed.

(** C2. One identifier for the whole run.  Every document the batch loop
    hands to the executor has the configured project UUID as the id
    attribute of its root and as the text of meta/instanceID, and so has
    every document the builder returns when called with that UUID: the
    identifier never varies from one submission to the next. *)
Theorem project_uuid_in_every_document (config : Config) (endpoint : string)
    (headers : list (string * string)) (rows : list Series) (w : World) :
  (forall t,
     In t (pool (snd (for_each rows (process_row config endpoint headers)
                               (with_pool [] w)))) ->
     get (task_root t) "id" = Some (project_uuid config) /\
     exists meta, find (task_root t) "meta" = Some meta /\
                  findtext meta "instanceID" = Some (project_uuid config)) /\
  (forall row matching_rows w' root,
     fst (process_submission row matching_rows (project_uuid config) w')
       = Ok root ->
     get root "id" = Some (project_uuid config) /\
     exists meta, find root "meta" = Some meta /\
                  findtext meta "instanceID" = Some (project_uuid config)).
Proof.
  split.
  - assert (Hall : forall w0,
              Forall (fun t => identified_by (project_uuid config)
                                             (task_root t)) (pool w0) ->
              Forall (fun t => identified_by (project_uuid config)
                                             (task_root t))
                     (pool (snd (for_each rows
                                   (process_row config endpoint headers) w0)))).
    { induction rows as [ | row rows IH]; intros w0 H0; cbn [for_each].
      - exact H0.
      - unfold bind.
        destruct (process_row_pool config endpoint headers row w0)
          as [Hp | (root & Hr & Hp)];
          destruct (process_row config endpoint headers row w0)
            as [[[] | e] w1]; cbn [snd] in *.
        + apply IH. now rewrite Hp.
        + now rewrite Hp.
        + apply IH. rewrite Hp. apply Forall_app. split; [exact H0 | ].
          now constructor.
        + rewrite Hp. apply Forall_app. split; [exact H0 | ].
          now constructor. }
    specialize (Hall (with_pool [] w) (Forall_nil _)).
    rewrite Forall_forall in Hall. intros t Hin. now apply Hall.
  - intros row matching_rows w' root H.
    rewrite process_submission_eq in H. cbn [fst] in H.
    now apply built_identified in H.
Qed.

Lemma project_uuid_in_every_document_witness :
  let endpoint := "https://kobocat.unhcr.org/api/v1/submissions" in
  let headers := [("Authorization", "Token secret")] in
  let queued :=
    pool (snd (for_each (iterrows households)
                        (process_row survey_config endpoint headers)
                        (with_pool [] survey_world))) in
  let t := nth 1 queued (mkTask (new_Element "none") "" []) in
  length queued = 2 /\
  get (task_root t) "id" = Some "uuid-1" /\
  exists meta, find (task_root t) "meta" = Some meta /\
               findtext meta "instanceID" = Some "uuid-1".
Proof.
  cbv zeta. split; [reflexivity | ].
  apply (proj1 (project_uuid_in_every_document survey_config
                  "https://kobocat.unhcr.org/api/v1/submissions"
                  [("Authorization", "Token secret")]
                  (iterrows households) survey_world)).
  vm_compute. right. left. reflexivity.
Defined.

(** The whole script on the sample survey: a warning for the missing table
    at each parent row, then one log line per dispatch, the second of which
    failed without stopping anything. *)
Example main_on_survey :
  fst (main survey_world) = Ok tt /\
  log (snd (main survey_world))
    = [(WARNING, "Guests does not exist!");
       (WARNING, "Guests does not exist!");
       (INFO, "Submission status: 201 created");
       (ERROR, "Failed to post submission: connection refused")] /\
  length (sent (snd (main survey_world))) = 2 /\
  looks (snd (main survey_world)) = 2.
Proof. repeat split; vm_compute; reflexivity. Qed.

(** Without a readable configuration nothing is attempted. *)
Example main_without_config :
  fst (main quiet_world) = Ok tt /\
  sent (snd (main quiet_world)) = [] /\
  map fst (log (snd (main quiet_world))) = [ERROR].
Proof. repeat split; vm_compute; reflexivity. Qed.

(* ===================================================================== *)
(** ** Missing fields                                                     *)
(* ===================================================================== *)

Lemma lookup_In_keys (d : dict) (g : string) (v : Value) :
  lookup g d = Some v -> In g (map fst d).
Proof.
  induction d as [ | [k x] d IH]; cbn; [discriminate | ].
  destruct (String.eqb k g) eqn:E.
  - apply String.eqb_eq in E. now left.
  - intros H. right. now apply IH.
Qed.

Lemma union_keys_In (ks seen : list string) (k : string) :
  In k (union_keys seen ks) <-> In k seen \/ In k ks.
Proof.
  revert seen. induction ks as [ | x ks IH]; intros seen; cbn.
  - tauto.
  - destruct (mem_string x seen) eqn:E; rewrite IH.
    + apply mem_string_In in E. split; [tauto | ].
      intros [H | [<- | H]]; tauto.
    + rewrite in_app_iff. cbn. tauto.
Qed.

Lemma records_columns_In (records : list dict) (d : dict) (k : string) :
  In d records -> In k (map fst d) -> In k (records_columns records).
Proof.
  unfold records_columns. generalize (@nil string) as seen.
  induction records as [ | d' records IH]; intros seen Hd Hk; [destruct Hd | ].
  cbn [fold_left]. destruct Hd as [-> | Hd].
  - clear IH. assert (H : In k (union_keys seen (map fst d))).
    { apply union_keys_In. now right. }
    revert H. generalize (union_keys seen (map fst d)) as seen'.
    induction records as [ | d' records IH]; intros seen' H; cbn [fold_left].
    + exact H.
    + apply IH. apply union_keys_In. now left.
  - now apply IH.
Qed.

Lemma lookup_combine_map (g : string -> Value) (cols : list string)
    (f : string) :
  In f cols -> lookup f (combine cols (map g cols)) = Some (g f).
Proof.
  induction cols as [ | c cols IH]; intros H; [destruct H | ].
  cbn. destruct (String.eqb c f) eqn:E.
  - apply String.eqb_eq in E. now subst.
  - destruct H as [-> | H]; [now rewrite String.eqb_refl in E | now apply IH].
Qed.

(** C7. A missing field fails loudly.  If the parent row lacks one of the
    fields the builder reads, or some row of the matched children handed to
    the builder lacks one of the child fields, the builder raises
    [KeyError] for a field that is indeed absent: it returns no document,
    and nothing is put in the place of the missing field. *)
Theorem missing_field_raises (row : Series) (matching_rows : DataFrame)
    (project_uuid : string) (w : World) :
  (exists f, In f parent_fields /\ lookup f row = None) \/
  (exists s f, In s (iterrows matching_rows) /\ In f child_fields /\
               lookup f s = None) ->
  exists k,
    fst (process_submission row matching_rows project_uuid w)
      = Raise (KeyError k) /\
    ((In k parent_fields /\ lookup k row = None) \/
     (In k child_fields /\
      exists s, In s (iterrows matching_rows) /\ lookup k s = None)).
Proof.
  intros H. rewrite process_submission_eq. cbn [fst]. unfold built.
  destruct (first_missing parent_fields row) as [k | ] eqn:Ep.
  - apply first_missing_Some in Ep. exists k. split; [reflexivity | now left].
  - destruct H as [(f & Hf & Hn) | (s & f & Hs & Hf & Hn)].
    + apply first_missing_None in Ep. now destruct (Ep f Hf).
    + destruct (Individuals_incomplete _ s f Hs Hf Hn)
        as (k & s' & H1 & H2 & H3 & H4).
      exists k. rewrite H1. split; [reflexivity | ].
      right. split; [assumption | now exists s'].
Qed.

Lemma missing_field_raises_witness :
  exists k,
    fst (process_submission doe_row lodgers "uuid-1" quiet_world)
      = Raise (KeyError k) /\
    ((In k parent_fields /\ lookup k doe_row = None) \/
     (In k child_fields /\
      exists s, In s (iterrows lodgers) /\ lookup k s = None)).
Proof.
  apply missing_field_raises.
  right.
  exists [("FID", VInt 1); ("Individual_FullName", VStr "Cy Roe");
          ("Individual_Sex", VStr "M"); ("Individual_Age", VInt 52)].
  exists "Relationship".
  split; [ | split].
  - simpl. left. reflexivity.
  - simpl. tauto.
  - reflexivity.
Defined.

(* ===================================================================== *)
(** ** The whole run                                                      *)
(* ===================================================================== *)

Lemma with_log_same (w : World) : with_log (log w) w = w.
Proof. destruct w; reflexivity. Qed.

Lemma matcher_only_logs (config : Config) (parent_id : Value)
    (l : list ChildSource) (acc : list dict) (w : World) :
  snd (for_fold l (extend_from_child config parent_id) acc w)
  = with_log (log (snd (for_fold l (extend_from_child config parent_id) acc w)))
             w.
Proof.
  revert acc w. induction l as [ | src l IH]; intros acc w; cbn [for_fold].
  - cbn. now rewrite with_log_same.
  - unfold bind. rewrite extend_from_child_eq.
    destruct (excel_files w (path src)) as [df | ].
    + destruct (mem_string (child_id_column config) (columns df)).
      * apply IH.
      * cbn. now rewrite with_log_same.
    + etransitivity; [apply IH | reflexivity].
Qed.

Lemma matcher_warnings (config : Config) (parent_id : Value)
    (l : list ChildSource) (acc : list dict) (w : World) :
  (forall src df, In src l -> excel_files w (path src) = Some df ->
                  In (child_id_column config) (columns df)) ->
  snd (for_fold l (extend_from_child config parent_id) acc w)
  = with_log (log w ++ map warning_for (filter (absent w) l)) w.
Proof.
  revert acc w. induction l as [ | src l IH]; intros acc w H;
    cbn [for_fold filter].
  - cbn. now rewrite app_nil_r, with_log_same.
  - unfold bind, absent at 1. rewrite extend_from_child_eq.
    destruct (excel_files w (path src)) as [df | ] eqn:E.
    + rewrite (proj2 (mem_string_In _ _) (H src df (or_introl eq_refl) E)).
      apply IH. intros s d Hs. apply H. now right.
    + rewrite IH.
      * cbn [map log with_log]. rewrite <- app_assoc. reflexivity.
      * intros s d Hs. apply H. now right.
Qed.

Lemma matcher_KeyError (config : Config) (parent_id : Value)
    (l : list ChildSource) (acc : list dict) (w : World) :
  (exists src df, In src l /\ excel_files w (path src) = Some df /\
                  ~ In (child_id_column config) (columns df)) ->
  fst (for_fold l (extend_from_child config parent_id) acc w)
  = Raise (KeyError (child_id_column config)).
Proof.
  revert acc w.
  induction l as [ | src l IH]; intros acc w (s & df & Hs & E & Hn);
    [destruct Hs | ].
  cbn [for_fold]. unfold bind. rewrite extend_from_child_eq.
  destruct Hs as [-> | Hs].
  - rewrite E.
    destruct (mem_string (child_id_column config) (columns df)) eqn:Em;
      [ | reflexivity].
    apply mem_string_In in Em. contradiction.
  - destruct (excel_files w (path src)) as [df' | ] eqn:E'.
    + destruct (mem_string (child_id_column config) (columns df'));
        [ | reflexivity].
      apply IH. now exists s, df.
    + apply IH. now exists s, df.
Qed.

Lemma Individuals_Ok_complete (rows : list Series) (l : list Element) :
  Individuals rows = Ok l -> Forall (complete child_fields) rows.
Proof.
  revert l. induction rows as [ | s rows IH]; intros l; cbn [Individuals].
  - constructor.
  - destruct (first_missing child_fields s) eqn:E; [discriminate | ].
    destruct (Individuals rows) as [l' | e]; [ | discriminate].
    intros _. constructor; [now apply first_missing_None | now apply (IH l')].
Qed.

Lemma built_Ok (today : Date) (row : Series) (df : DataFrame) (u : string)
    (root : Element) :
  built today row df u = Ok root ->
  complete parent_fields row /\
  Forall (complete child_fields) (iterrows df) /\
  root = document (strftime today) row df u (map Individual_of (iterrows df)).
Proof.
  unfold built.
  destruct (first_missing parent_fields row) eqn:Ep; [discriminate | ].
  destruct (Individuals (iterrows df)) as [l | e] eqn:E; [ | discriminate].
  intros [= <-].
  split; [now apply first_missing_None | ].
  split; [now apply Individuals_Ok_complete in E | ].
  now rewrite (Individuals_Ok _ _ E).
Qed.

(** What a successful turn of the batch loop has done. *)
Lemma process_row_Ok (config : Config) (endpoint : string)
    (headers : list (string * string)) (row : Series) (w : World) :
  fst (process_row config endpoint headers row w) = Ok tt ->
  exists parent_id data root,
    lookup (parent_id_column config) row = Some parent_id /\
    fst (matching_rows_data config parent_id w) = Ok data /\
    built (calendar w (looks w)) row (DataFrame_of_records data)
          (project_uuid config) = Ok root /\
    snd (process_row config endpoint headers row w)
    = with_pool (pool w ++ [mkTask root endpoint headers])
        (with_looks (S (looks w))
           (with_log (log (snd (matching_rows_data config parent_id w))) w)).
Proof.
  rewrite process_row_eq.
  destruct (lookup (parent_id_column config) row) as [parent_id | ];
    [ | discriminate].
  pose proof (matcher_only_logs config parent_id (child_data_paths config)
                [] w) as Hw.
  rewrite <- matching_rows_data_eq in Hw.
  destruct (matching_rows_data config parent_id w) as [[data | e] w1] eqn:Em;
    [ | discriminate].
  cbn [snd] in Hw.
  assert (Hc : calendar w1 = calendar w) by now rewrite Hw.
  assert (Hl : looks w1 = looks w) by now rewrite Hw.
  rewrite Hc, Hl.
  destruct (built (calendar w (looks w)) row (DataFrame_of_records data)
              (project_uuid config)) as [root | e] eqn:Eb; [ | discriminate].
  intros _. exists parent_id, data, root.
  rewrite Em. repeat split; try assumption. cbn [snd]. rewrite Hw. reflexivity.
Qed.

(** Whatever its outcome, a turn of the loop sends nothing and leaves the
    calendar, the files and the remote service as they are. *)
Lemma process_row_frame (config : Config) (endpoint : string)
    (headers : list (string * string)) (row : Series) (w : World) :
  let w' := snd (process_row config endpoint headers row w) in
  sent w' = sent w /\ calendar w' = calendar w /\
  excel_files w' = excel_files w /\ remote w' = remote w /\
  json_files w' = json_files w.
Proof.
  cbv zeta. rewrite process_row_eq.
  destruct (lookup (parent_id_column config) row) as [parent_id | ];
    [ | repeat split].
  pose proof (matcher_only_logs config parent_id (child_data_paths config)
                [] w) as Hw.
  rewrite <- matching_rows_data_eq in Hw.
  destruct (matching_rows_data config parent_id w) as [[data | e] w1];
    cbn [snd] in Hw.
  - destruct (built _ row (DataFrame_of_records data) (project_uuid config));
      cbn [snd]; rewrite Hw; repeat split.
  - cbn [snd]. rewrite Hw. repeat split.
Qed.

Lemma matching_rows_data_files_only (config : Config) (parent_id : Value)
    (w1 w2 : World) :
  excel_files w1 = excel_files w2 ->
  fst (matching_rows_data config parent_id w1)
  = fst (matching_rows_data config parent_id w2).
Proof.
  intros H. rewrite !matching_rows_data_eq. now apply matcher_files_only.
Qed.

(** The batch loop when no turn fails: one task per parent row, in row
    order, each built from its row, the records matched to the row's key
    and the date of its own look at the calendar. *)
Lemma loop_success (config : Config) (endpoint : string)
    (headers : list (string * string)) (rows : list Series) (w : World) :
  fst (for_each rows (process_row config endpoint headers) w) = Ok tt ->
  let w' := snd (for_each rows (process_row config endpoint headers) w) in
  exists tasks,
    pool w' = pool w ++ tasks /\
    length tasks = length rows /\
    looks w' = looks w + length rows /\
    sent w' = sent w /\
    forall i row, nth_error rows i = Some row ->
      exists parent_id data,
        lookup (parent_id_column config) row = Some parent_id /\
        fst (matching_rows_data config parent_id w) = Ok data /\
        nth_error tasks i
        = Some (mkTask (submission (calendar w (looks w + i)) row data
                                   (project_uuid config))
                       endpoint headers).
Proof.
  revert w. induction rows as [ | row rows IH]; intros w; cbn [for_each].
  - intros _. exists []. cbn. rewrite app_nil_r, Nat.add_0_r.
    repeat split. intros [ | i] r H; discriminate.
  - unfold bind.
    pose proof (process_row_Ok config endpoint headers row w) as HOk.
    pose proof (process_row_frame config endpoint headers row w) as HF.
    destruct (process_row config endpoint headers row w) as [[[] | e] w1];
      [ | discriminate].
    cbn [fst snd] in HOk, HF.
    destruct (HOk eq_refl) as (parent_id & data & root & Hid & Hm & Hb & Hw).
    destruct HF as (Hs & Hc & Hf & _).
    intros H. destruct (IH w1 H) as (tasks & Hp & Hlen & Hlk & Hsent & Hnth).
    apply built_Ok in Hb. destruct Hb as (_ & _ & ->).
    exists (mkTask (submission (calendar w (looks w)) row data
                               (project_uuid config)) endpoint headers
            :: tasks).
    assert (Hpw : pool w1 = pool w ++ [mkTask (submission (calendar w (looks w))
                     row data (project_uuid config)) endpoint headers])
      by now rewrite Hw.
    assert (Hlw : looks w1 = S (looks w)) by now rewrite Hw.
    cbv zeta. rewrite Hp, Hpw, Hlk, Hlw, Hsent, Hs, <- app_assoc.
    cbn [length app]. repeat split; try lia.
    intros [ | i] r Hr; cbn [nth_error] in *.
    + injection Hr as <-. exists parent_id, data.
      rewrite Nat.add_0_r. repeat split; assumption.
    + destruct (Hnth i r Hr) as (pid & dat & H1 & H2 & H3).
      exists pid, dat. split; [exact H1 | ]. split.
      * rewrite <- H2. apply matching_rows_data_files_only. now rewrite Hf.
      * rewrite H3, Hc, Hlw. do 3 f_equal. f_equal. lia.
Qed.

(** The batch loop, whatever happens: it queues at most one task per row,
    each for the given endpoint and headers, and sends nothing itself. *)
Lemma loop_general (config : Config) (endpoint : string)
    (headers : list (string * string)) (rows : list Series) (w : World) :
  let w' := snd (for_each rows (process_row config endpoint headers) w) in
  exists tasks,
    pool w' = pool w ++ tasks /\
    length tasks <= length rows /\
    sent w' = sent w /\
    Forall (fun t => task_endpoint t = endpoint /\ task_headers t = headers /\
                     identified_by (project_uuid config) (task_root t)) tasks.
Proof.
  revert w. induction rows as [ | row rows IH]; intros w; cbn [for_each].
  - exists []. cbn. rewrite app_nil_r. repeat split. lia. constructor.
  - unfold bind.
    pose proof (process_row_pool config endpoint headers row w) as HP.
    pose proof (process_row_frame config endpoint headers row w) as HF.
    destruct (process_row config endpoint headers row w) as [[[] | e] w1];
      cbn [fst snd] in HP, HF; destruct HF as (Hs & _).
    + destruct (IH w1) as (tasks & Hp & Hlen & Hsent & Hall).
      destruct HP as [HP | (root & Hr & HP)].
      * exists tasks. cbv zeta. rewrite Hp, HP, Hsent, Hs.
        repeat split; [cbn; lia | assumption].
      * exists (mkTask root endpoint headers :: tasks).
        cbv zeta. rewrite Hp, HP, Hsent, Hs, <- app_assoc.
        repeat split; [cbn; lia | ]. constructor; [ | assumption].
        repeat split; assumption || apply Hr.
    + destruct HP as [HP | (root & Hr & HP)].
      * exists []. cbn [snd]. rewrite HP, app_nil_r.
        repeat split; [cbn; lia | assumption | constructor].
      * exists [mkTask root endpoint headers]. cbn [snd]. rewrite HP.
        repeat split; [cbn; lia | assumption | ]. constructor; [ | constructor].
        repeat split; assumption || apply Hr.
Qed.

Lemma main_eq (config : Config) (df : DataFrame) (w : World) :
  json_files w "config.json" = Ok config ->
  excel_files w (parent_data_path config) = Some df ->
  main w = with_ThreadPoolExecutor 5
             (for_each (iterrows df)
                (process_row config submissions_endpoint (auth_headers config)))
             w.
Proof.
  intros Hj Hp. unfold main, load_config, try_except, bind at 1.
  rewrite Hj. unfold bind at 1, read_excel. rewrite Hp. reflexivity.
Qed.

Lemma lookup_combine_Some (cols : list string) (r : list Value) (f : string) :
  In f cols -> length r = length cols -> lookup f (combine cols r) <> None.
Proof.
  revert r. induction cols as [ | c cols IH]; intros r Hf Hl; [destruct Hf | ].
  destruct r as [ | v r]; [discriminate | ]. cbn.
  destruct (String.eqb c f) eqn:E; [discriminate | ].
  destruct Hf as [-> | Hf]; [now rewrite String.eqb_refl in E | ].
  apply IH; [assumption | now injection Hl].
Qed.

Lemma lookup_combine_None (cols : list string) (r : list Value) (f : string) :
  ~ In f cols -> lookup f (combine cols r) = None.
Proof.
  revert r. induction cols as [ | c cols IH]; intros r Hf; [reflexivity | ].
  destruct r as [ | v r]; [reflexivity | ]. cbn.
  destruct (String.eqb c f) eqn:E.
  - apply String.eqb_eq in E. subst. destruct Hf. now left.
  - apply IH. intros H. apply Hf. now right.
Qed.

Lemma rows_complete (fs : list string) (df : DataFrame) :
  has_columns fs df -> Forall (complete fs) (iterrows df).
Proof.
  intros [Hr Hc]. unfold iterrows. apply Forall_forall. intros s Hs.
  apply in_map_iff in Hs. destruct Hs as (r & <- & Hin).
  intros f Hf. apply lookup_combine_Some; [now apply Hc | ].
  unfold rectangular in Hr. rewrite Forall_forall in Hr. now apply Hr.
Qed.

Lemma iterrows_of_records (data : list dict) :
  iterrows (DataFrame_of_records data) = map (padded data) data.
Proof.
  unfold iterrows, DataFrame_of_records, padded. cbn [columns values].
  now rewrite map_map.
Qed.

Lemma padded_keeps (data : list dict) (d : dict) (g : string) :
  In d data -> lookup g d <> None -> lookup g (padded data d) <> None.
Proof.
  intros Hd Hg. destruct (lookup g d) as [v | ] eqn:E; [ | congruence].
  unfold padded. rewrite lookup_combine_map; [discriminate | ].
  apply (records_columns_In data d); [assumption | ].
  now apply lookup_In_keys in E.
Qed.

Lemma padded_complete (fs : list string) (data : list dict) :
  Forall (complete fs) data ->
  Forall (complete fs) (iterrows (DataFrame_of_records data)).
Proof.
  intros H. rewrite iterrows_of_records. apply Forall_forall. intros s Hs.
  apply in_map_iff in Hs. destruct Hs as (d & <- & Hd).
  rewrite Forall_forall in H. intros f Hf.
  apply padded_keeps; [assumption | now apply H].
Qed.

Lemma matched_all_complete (config : Config) (parent_id : Value) (w : World) :
  (forall src df, In src (child_data_paths config) ->
                  excel_files w (path src) = Some df ->
                  has_columns (child_id_column config :: child_fields) df) ->
  Forall (complete child_fields) (matched_all py_eq config parent_id w).
Proof.
  intros H. apply Forall_forall. intros d Hd.
  unfold matched_all in Hd. apply in_flat_map in Hd.
  destruct Hd as (src & Hsrc & Hd).
  destruct (excel_files w (path src)) as [df | ] eqn:E; [ | destruct Hd].
  unfold matched in Hd. apply filter_In in Hd. destruct Hd as [Hd _].
  destruct (H src df Hsrc E) as [Hr Hc].
  assert (Hall : Forall (complete child_fields) (iterrows df)).
  { apply rows_complete. split; [assumption | ].
    intros f Hf. apply Hc. now right. }
  rewrite Forall_forall in Hall. now apply Hall.
Qed.

Lemma absent_files (w1 w2 : World) (l : list ChildSource) :
  excel_files w1 = excel_files w2 ->
  filter (absent w1) l = filter (absent w2) l.
Proof.
  intros H. apply filter_ext. intros src. unfold absent. now rewrite H.
Qed.

Lemma process_row_completes (config : Config) (endpoint : string)
    (headers : list (string * string)) (row : Series) (w : World) :
  lookup (parent_id_column config) row <> None ->
  complete parent_fields row ->
  (forall src df, In src (child_data_paths config) ->
                  excel_files w (path src) = Some df ->
                  has_columns (child_id_column config :: child_fields) df) ->
  fst (process_row config endpoint headers row w) = Ok tt /\
  log (snd (process_row config endpoint headers row w))
  = log w ++ map warning_for (filter (absent w) (child_data_paths config)).
Proof.
  intros Hid Hp Hc. rewrite process_row_eq.
  destruct (lookup (parent_id_column config) row) as [parent_id | ];
    [ | congruence].
  assert (Hfk : forall src df, In src (child_data_paths config) ->
                  excel_files w (path src) = Some df ->
                  In (child_id_column config) (columns df)).
  { intros src df Hs E. destruct (Hc src df Hs E) as [_ H]. apply H. now left. }
  pose proof (for_fold_matched config parent_id (child_data_paths config)
                [] w Hfk) as Hm.
  pose proof (matcher_warnings config parent_id (child_data_paths config)
                [] w Hfk) as Hw.
  rewrite <- matching_rows_data_eq in Hm, Hw.
  destruct (matching_rows_data config parent_id w) as [[data | e] w1];
    cbn [fst snd] in Hm, Hw; [ | discriminate].
  injection Hm as ->. cbn [app].
  fold (matched_all py_eq config parent_id w).
  rewrite built_complete.
  - cbn [fst snd]. rewrite Hw. split; reflexivity.
  - exact Hp.
  - apply padded_complete. now apply matched_all_complete.
Qed.

Lemma loop_completes (config : Config) (endpoint : string)
    (headers : list (string * string)) (rows : list Series) (w : World) :
  Forall (fun row => lookup (parent_id_column config) row <> None /\
                     complete parent_fields row) rows ->
  (forall src df, In src (child_data_paths config) ->
                  excel_files w (path src) = Some df ->
                  has_columns (child_id_column config :: child_fields) df) ->
  fst (for_each rows (process_row config endpoint headers) w) = Ok tt /\
  log (snd (for_each rows (process_row config endpoint headers) w))
  = log w ++ flat_map (fun _ => map warning_for
                                  (filter (absent w) (child_data_paths config)))
                      rows.
Proof.
  revert w. induction rows as [ | row rows IH]; intros w Hr Hc;
    cbn [for_each flat_map].
  - cbn. now rewrite app_nil_r.
  - inversion Hr as [ | r rs [Hid Hp] Hrs]; subst.
    unfold bind.
    destruct (process_row_completes config endpoint headers row w Hid Hp Hc)
      as [HOk Hlog].
    pose proof (process_row_frame config endpoint headers row w) as HF.
    destruct (process_row config endpoint headers row w) as [[[] | e] w1];
      [ | discriminate].
    cbn [fst snd] in *. destruct HF as (_ & _ & Hf & _).
    destruct (IH w1 Hrs) as [H1 H2].
    { intros src df Hs E. rewrite Hf in E. exact (Hc src df Hs E). }
    split; [exact H1 | ].
    rewrite H2, Hlog, <- app_assoc.
    now rewrite (absent_files w1 w _ Hf).
Qed.

Lemma parent_rows_complete (config : Config) (df : DataFrame) :
  has_columns (parent_id_column config :: parent_fields) df ->
  Forall (fun row => lookup (parent_id_column config) row <> None /\
                     complete parent_fields row) (iterrows df).
Proof.
  intros [Hr Hc]. unfold iterrows. apply Forall_forall. intros s Hs.
  apply in_map_iff in Hs. destruct Hs as (r & <- & Hin).
  unfold rectangular in Hr. rewrite Forall_forall in Hr.
  split.
  - apply lookup_combine_Some; [apply Hc; now left | now apply Hr].
  - intros f Hf.
    apply lookup_combine_Some; [apply Hc; now right | now apply Hr].
Qed.

Lemma drain_looks (tasks : list Task) (w : World) :
  looks (drain tasks w) = looks w.
Proof.
  unfold drain. revert w.
  induction tasks as [ | t tasks IH]; intros w; cbn [fold_left].
  - reflexivity.
  - rewrite IH. unfold run_task. now rewrite post_submission_eq.
Qed.

Lemma flat_map_const_length {X Y} (l : list X) (c : list Y) :
  length (flat_map (fun _ => c) l) = length l * length c.
Proof.
  induction l as [ | x l IH]; cbn; [reflexivity | ].
  now rewrite length_app, IH.
Qed.

(** X5. A well-formed survey is dispatched completely.  When the parent
    table has the key column and the five parent fields, and every
    configured child table that exists has the foreign-key column and the
    five child fields, [main] returns normally whatever the remote service
    answers: it has looked at the calendar once per parent row, sent
    exactly one request per parent row, and written, per parent row, one
    warning for each configured child table that does not exist and one
    line for the dispatch. *)
Theorem main_completes_batch (config : Config) (df : DataFrame) (w : World) :
  json_files w "config.json" = Ok config ->
  excel_files w (parent_data_path config) = Some df ->
  has_columns (parent_id_column config :: parent_fields) df ->
  (forall src dfc, In src (child_data_paths config) ->
                   excel_files w (path src) = Some dfc ->
                   has_columns (child_id_column config :: child_fields) dfc) ->
  fst (main w) = Ok tt /\
  length (sent (snd (main w))) = length (sent w) + len df /\
  looks (snd (main w)) = looks w + len df /\
  length (log (snd (main w)))
    = length (log w)
      + len df * (length (filter (absent w) (child_data_paths config)) + 1) /\
  pool (snd (main w)) = [].
Proof.
  intros Hj Hp Hd Hc. rewrite (main_eq config df w Hj Hp).
  unfold with_ThreadPoolExecutor.
  destruct (loop_completes config submissions_endpoint (auth_headers config)
              (iterrows df) (with_pool [] w)
              (parent_rows_complete config df Hd) Hc) as [HOk Hlog].
  destruct (loop_success config submissions_endpoint (auth_headers config)
              (iterrows df) (with_pool [] w) HOk)
    as (tasks & Hpool & Hlen & Hlooks & Hsent & _).
  destruct (for_each (iterrows df)
              (process_row config submissions_endpoint (auth_headers config))
              (with_pool [] w)) as [r w1].
  cbn [fst snd] in *. subst r.
  destruct (drain_eq (pool w1) (with_pool [] w1)) as (Hs & Hl & Hq).
  rewrite Hs, Hl, Hq, drain_looks. cbn [sent log pool looks with_pool].
  rewrite Hsent, Hpool, Hlooks, Hlog.
  cbn [sent log pool looks with_pool app].
  rewrite !length_app, length_map, flat_map_const_length, length_map, Hlen,
    length_iterrows.
  rewrite (absent_files (with_pool [] w) w _ eq_refl).
  repeat split; lia.
Qed.

Lemma main_completes_batch_witness :
  fst (main tidy_world) = Ok tt /\
  length (sent (snd (main tidy_world))) = 0 + 2 /\
  looks (snd (main tidy_world)) = 0 + 2 /\
  length (log (snd (main tidy_world))) = 0 + 2 * (1 + 1) /\
  pool (snd (main tidy_world)) = [].
Proof.
  apply (main_completes_batch tidy_config households tidy_world).
  - reflexivity.
  - reflexivity.
  - split; [repeat constructor | in_columns].
  - intros src dfc Hin E. simpl in Hin.
    destruct Hin as [<- | [<- | []]]; vm_compute in E;
      try discriminate; injection E as <-.
    split; [repeat constructor | in_columns].
Defined.

(** X1. An unreadable configuration stops the run quietly.  When
    [config.json] cannot be opened or parsed, [load_config] catches the
    exception and [main] returns normally: the only thing that happens is
    one ERROR line telling the exception; no spreadsheet is read, no
    document built, no request sent. *)
Theorem main_without_readable_config (e : Exception) (w : World) :
  json_files w "config.json" = Raise e ->
  main w = (Ok tt,
            with_log (log w ++ [(ERROR, ("Failed to load config: "
                                         ++ str_exception e)%string)]) w).
Proof.
  intros H. unfold main, load_config, try_except, bind at 1. rewrite H.
  reflexivity.
Qed.

Lemma main_without_readable_config_witness :
  main quiet_world
  = (Ok tt,
     with_log [(ERROR,
                ("Failed to load config: "
                 ++ "[Errno 2] No such file or directory: 'config.json'")
                %string)]
              quiet_world).
Proof.
  apply (main_without_readable_config (FileNotFoundError "config.json")
           quiet_world).
  reflexivity.
Defined.

(** X2. A missing parent spreadsheet is not caught.  With a readable
    configuration whose parent file does not exist, [main] ends with the
    exception of [pd.read_excel] and has done nothing else: nothing logged,
    nothing sent. *)
Theorem main_without_parent_table (config : Config) (w : World) :
  json_files w "config.json" = Ok config ->
  excel_files w (parent_data_path config) = None ->
  main w = (Raise (FileNotFoundError (parent_data_path config)), w).
Proof.
  intros Hj Hp. unfold main, load_config, try_except, bind at 1. rewrite Hj.
  unfold bind at 1, read_excel. rewrite Hp. reflexivity.
Qed.

Lemma main_without_parent_table_witness :
  main unplugged_world
  = (Raise (FileNotFoundError "households.xlsx"), unplugged_world).
Proof.
  apply (main_without_parent_table survey_config unplugged_world);
    reflexivity.
Defined.

(** X4. What a run can send.  With a readable configuration and an
    existing parent table, whatever else happens, the requests sent during
    [main] are at most one per parent row, each to the submissions endpoint
    with the header [Authorization: Token <api_token>], each carrying as its
    only part the file [data.xml] of type [text/xml] under the name
    [xml_submission_file], holding the serialization of a document that
    bears the project UUID; and no queued dispatch is left when [main]
    ends. *)
Theorem main_requests (config : Config) (df : DataFrame) (w : World) :
  json_files w "config.json" = Ok config ->
  excel_files w (parent_data_path config) = Some df ->
  exists requests,
    sent (snd (main w)) = sent w ++ requests /\
    length requests <= len df /\
    Forall (well_addressed config) requests /\
    pool (snd (main w)) = [].
Proof.
  intros Hj Hp. rewrite (main_eq config df w Hj Hp).
  unfold with_ThreadPoolExecutor.
  destruct (loop_general config submissions_endpoint (auth_headers config)
              (iterrows df) (with_pool [] w))
    as (tasks & Hpool & Hlen & Hsent & Hall).
  destruct (for_each (iterrows df)
              (process_row config submissions_endpoint (auth_headers config))
              (with_pool [] w)) as [r w1].
  cbn [fst snd] in *.
  destruct (drain_eq (pool w1) (with_pool [] w1)) as (Hs & _ & Hq).
  exists (map request_of tasks).
  rewrite Hs, Hq. cbn [sent pool with_pool] in *. rewrite Hsent, Hpool.
  cbn [app]. rewrite length_map, <- length_iterrows.
  repeat split; try assumption.
  apply Forall_forall. intros rq Hr. apply in_map_iff in Hr.
  destruct Hr as (t & <- & Ht). rewrite Forall_forall in Hall.
  destruct (Hall t Ht) as (He & Hh & Hi).
  unfold well_addressed, request_of. cbn [url req_headers files].
  repeat split; try assumption. exists (task_root t). now split.
Qed.

Lemma main_requests_witness :
  exists requests,
    sent (snd (main survey_world)) = [] ++ requests /\
    length requests <= 2 /\
    Forall (well_addressed survey_config) requests /\
    pool (snd (main survey_world)) = [].
Proof.
  apply (main_requests survey_config households survey_world); reflexivity.
Defined.

Lemma for_each_app {X} (l1 l2 : list X) (body : X -> M unit) (w : World) :
  for_each (l1 ++ l2) body w =
  match for_each l1 body w with
  | (Ok _, w') => for_each l2 body w'
  | (Raise e, w') => (Raise e, w')
  end.
Proof.
  revert w. induction l1 as [ | x l1 IH]; intros w; cbn [app for_each].
  - reflexivity.
  - unfold bind.
    destruct (body x w) as [[[] | e] w']; [apply IH | reflexivity].
Qed.

Lemma process_row_Raise (config : Config) (endpoint : string)
    (headers : list (string * string)) (row : Series) (w : World)
    (e : Exception) :
  fst (process_row config endpoint headers row w) = Raise e ->
  pool (snd (process_row config endpoint headers row w)) = pool w.
Proof.
  rewrite process_row_eq.
  destruct (lookup (parent_id_column config) row) as [parent_id | ];
    [ | reflexivity].
  rewrite matching_rows_data_eq.
  pose proof (matcher_pool config parent_id (child_data_paths config) [] w)
    as Hp.
  destruct (for_fold (child_data_paths config)
              (extend_from_child config parent_id) [] w)
    as [[data | e'] w1]; cbn [snd] in Hp; [ | now intros _].
  destruct (built _ row (DataFrame_of_records data) (project_uuid config));
    [discriminate | now intros _].
Qed.

(** X6. A failing row aborts the rest of the batch.  If the rows before
    some parent row are processed without error and that row raises, [main]
    ends with that exception; the documents of the rows before it are still
    dispatched, one request each, nothing is sent for the failing row or
    for any row after it, and the calendar is looked at for no later
    row. *)
Theorem failing_row_aborts_batch (config : Config) (df : DataFrame)
    (pre post : list Series) (row : Series) (e : Exception) (w : World) :
  json_files w "config.json" = Ok config ->
  excel_files w (parent_data_path config) = Some df ->
  iterrows df = pre ++ row :: post ->
  let body := process_row config submissions_endpoint (auth_headers config) in
  fst (for_each pre body (with_pool [] w)) = Ok tt ->
  fst (body row (snd (for_each pre body (with_pool [] w)))) = Raise e ->
  fst (main w) = Raise e /\
  length (sent (snd (main w))) = length (sent w) + length pre /\
  looks (snd (main w)) <= looks w + length pre + 1 /\
  pool (snd (main w)) = [].
Proof.
  intros Hj Hp Hrows body Hpre Hrow.
  rewrite (main_eq config df w Hj Hp). fold body. rewrite Hrows.
  unfold with_ThreadPoolExecutor. rewrite for_each_app.
  destruct (loop_success config submissions_endpoint (auth_headers config)
              pre (with_pool [] w) Hpre)
    as (tasks & Hpool & Hlen & Hlooks & Hsent & _).
  fold body in Hpool, Hlooks, Hsent.
  destruct (for_each pre body (with_pool [] w)) as [r w1].
  cbn [fst snd] in *. subst r. cbn [for_each]. unfold bind.
  pose proof (process_row_Raise config submissions_endpoint
                (auth_headers config) row w1 e Hrow) as Hq.
  pose proof (process_row_frame config submissions_endpoint
                (auth_headers config) row w1) as HF.
  pose proof (process_row_eq config submissions_endpoint
                (auth_headers config) row w1) as HE.
  fold body in Hq, HF, HE.
  assert (Hlk : looks (snd (body row w1)) <= S (looks w1)).
  { rewrite HE.
    destruct (lookup (parent_id_column config) row) as [pid | ];
      [ | cbn; lia].
    pose proof (matcher_only_logs config pid (child_data_paths config) [] w1)
      as Hw.
    rewrite <- matching_rows_data_eq in Hw.
    destruct (matching_rows_data config pid w1) as [[data | e'] w2];
      cbn [snd] in Hw.
    - assert (looks w2 = looks w1) as Hl by now rewrite Hw.
      destruct (built _ row (DataFrame_of_records data) (project_uuid config));
        cbn; lia.
    - cbn [snd]. rewrite Hw. cbn. lia. }
  destruct (body row w1) as [[[] | e'] w2]; cbn [fst snd] in *;
    [discriminate | ].
  injection Hrow as ->. destruct HF as (Hs & _).
  destruct (drain_eq (pool w2) (with_pool [] w2)) as (Hd & _ & Hdq).
  rewrite Hd, Hdq, drain_looks. cbn [sent pool looks with_pool].
  rewrite Hq, Hpool, Hs, Hsent. cbn [sent pool app with_pool].
  rewrite length_app, length_map, Hlen.
  cbn [looks with_pool] in Hlooks.
  repeat split; lia.
Qed.

Lemma failing_row_aborts_batch_witness :
  fst (main lodger_world) = Raise (KeyError "Relationship") /\
  length (sent (snd (main lodger_world))) = 0 + 1 /\
  looks (snd (main lodger_world)) <= 0 + 1 + 1 /\
  pool (snd (main lodger_world)) = [].
Proof.
  apply (failing_row_aborts_batch survey_config households_b
           [nth 0 (iterrows households_b) []] []
           (nth 1 (iterrows households_b) [])
           (KeyError "Relationship") lodger_world).
  - reflexivity.
  - reflexivity.
  - reflexivity.
  - vm_compute. reflexivity.
  - vm_compute. reflexivity.
Defined.

(** X7. The matcher only writes warnings.  When every configured child
    table that exists has the foreign-key column, matching for one parent
    key changes nothing in the world but the log, which gains exactly one
    warning per configured child table that does not exist, in
    configuration order. *)
Theorem matcher_warns_once_per_missing_table (config : Config)
    (parent_id : Value) (w : World) :
  (forall src df, In src (child_data_paths config) ->
                  excel_files w (path src) = Some df ->
                  In (child_id_column config) (columns df)) ->
  snd (matching_rows_data config parent_id w)
  = with_log (log w ++ map warning_for
                         (filter (absent w) (child_data_paths config))) w.
Proof.
  intros H. rewrite matching_rows_data_eq. now apply matcher_warnings.
Qed.

Lemma matcher_warns_once_per_missing_table_witness :
  snd (matching_rows_data survey_config (VInt 1) survey_world)
  = with_log [(WARNING, "Guests does not exist!")] survey_world.
Proof.
  apply (matcher_warns_once_per_missing_table survey_config (VInt 1)
           survey_world).
  intros src df Hin E. simpl in Hin.
  destruct Hin as [<- | [<- | [<- | []]]]; vm_compute in E;
    try discriminate; injection E as <-; simpl; tauto.
Defined.

(** X8. A child table without the foreign-key column.  If some configured
    child table exists and has no column of the configured name, matching
    raises [KeyError] for that name, for every parent key; nothing is sent
    or queued by it. *)
Theorem matcher_raises_without_key_column (config : Config)
    (parent_id : Value) (src : ChildSource) (df : DataFrame) (w : World) :
  In src (child_data_paths config) ->
  excel_files w (path src) = Some df ->
  ~ In (child_id_column config) (columns df) ->
  fst (matching_rows_data config parent_id w)
    = Raise (KeyError (child_id_column config)) /\
  sent (snd (matching_rows_data config parent_id w)) = sent w /\
  pool (snd (matching_rows_data config parent_id w)) = pool w.
Proof.
  intros Hs E Hn. rewrite matching_rows_data_eq.
  split; [apply matcher_KeyError; now exists src, df | ].
  rewrite matcher_only_logs. split; reflexivity.
Qed.

Lemma matcher_raises_without_key_column_witness :
  fst (matching_rows_data misnamed_config (VInt 1) survey_world)
    = Raise (KeyError "HID") /\
  sent (snd (matching_rows_data misnamed_config (VInt 1) survey_world)) = [] /\
  pool (snd (matching_rows_data misnamed_config (VInt 1) survey_world)) = [].
Proof.
  apply (matcher_raises_without_key_column misnamed_config (VInt 1)
           (mkChildSource "Members" "members.xlsx") members survey_world).
  - simpl. tauto.
  - reflexivity.
  - simpl. intros H. repeat (destruct H as [H | H]; [discriminate | ]).
    exact H.
Defined.

(** X3. A parent table without the configured key column.  If the table
    has a row, [main] ends with [KeyError] for the key column at the first
    row, before any child table is looked for: nothing is logged, built or
    sent.  If the table has no row at all, [main] returns normally, again
    having done nothing. *)
Theorem main_without_parent_key_column (config : Config) (df : DataFrame)
    (w : World) :
  json_files w "config.json" = Ok config ->
  excel_files w (parent_data_path config) = Some df ->
  ~ In (parent_id_column config) (columns df) ->
  fst (main w) = (if Nat.eqb (len df) 0 then Ok tt
                  else Raise (KeyError (parent_id_column config))) /\
  log (snd (main w)) = log w /\
  sent (snd (main w)) = sent w /\
  looks (snd (main w)) = looks w.
Proof.
  intros Hj Hp Hn. rewrite (main_eq config df w Hj Hp).
  unfold with_ThreadPoolExecutor, iterrows, len.
  destruct (values df) as [ | r rs].
  - repeat split.
  - cbn [map for_each]. unfold bind. rewrite process_row_eq.
    rewrite (lookup_combine_None _ r _ Hn). repeat split.
Qed.

Lemma main_without_parent_key_column_witness :
  fst (main misnamed_world) = Raise (KeyError "HID") /\
  log (snd (main misnamed_world)) = [] /\
  sent (snd (main misnamed_world)) = [] /\
  looks (snd (main misnamed_world)) = 0.
Proof.
  apply (main_without_parent_key_column misnamed_config households
           misnamed_world).
  - reflexivity.
  - reflexivity.
  - simpl. intros H. repeat (destruct H as [H | H]; [discriminate | ]).
    exact H.
Defined.

(** X12. Which missing field is reported.  The [KeyError] of the builder
    names the first parent field the row lacks, in the order FID, HName,
    HSex, HAge, HLocation, whatever the children; with a complete parent row
    and at least one child row it names the first child field, in the order
    FID, Individual_FullName, Individual_Sex, Individual_Age, Relationship,
    that the first child row lacks. *)
Theorem builder_reports_first_missing_field (row : Series)
    (matching_rows : DataFrame) (project_uuid : string) (w : World) :
  (forall k, first_missing parent_fields row = Some k ->
     fst (process_submission row matching_rows project_uuid w)
       = Raise (KeyError k)) /\
  (forall s post k,
     complete parent_fields row ->
     iterrows matching_rows = s :: post ->
     first_missing child_fields s = Some k ->
     fst (process_submission row matching_rows project_uuid w)
       = Raise (KeyError k)).
Proof.
  split.
  - intros k Hk. rewrite process_submission_eq. cbn [fst]. unfold built.
    now rewrite Hk.
  - intros s post k Hp Hrows Hk.
    rewrite process_submission_eq. cbn [fst]. unfold built.
    apply first_missing_None in Hp. rewrite Hp, Hrows.
    cbn [Individuals]. now rewrite Hk.
Qed.

Lemma builder_reports_first_missing_field_witness :
  fst (process_submission [("FID", VInt 1); ("HSex", VStr "M")] lodgers
                          "uuid-1" quiet_world)
    = Raise (KeyError "HName") /\
  fst (process_submission doe_row lodgers "uuid-1" quiet_world)
    = Raise (KeyError "Relationship").
Proof.
  split.
  - apply (proj1 (builder_reports_first_missing_field
                    [("FID", VInt 1); ("HSex", VStr "M")] lodgers "uuid-1"
                    quiet_world)).
    reflexivity.
  - apply (proj2 (builder_reports_first_missing_field doe_row lodgers
                    "uuid-1" quiet_world)
             (nth 0 (iterrows lodgers) []) []).
    + apply first_missing_None. reflexivity.
    + reflexivity.
    + reflexivity.
Defined.

Lemma len_of_records (data : list dict) :
  len (DataFrame_of_records data) = length data.
Proof. unfold len, DataFrame_of_records. cbn [values]. apply length_map. Qed.

(** X10. The household size counts the matched records.  When a turn of
    the batch loop succeeds, the document it queues was built from the
    records the matcher returns for the row's key: its HHSize is their
    number plus one, its other_members says whether there is any, and it
    has one Individual element per record. *)
Theorem queued_document_counts_matches (config : Config) (endpoint : string)
    (headers : list (string * string)) (row : Series) (w : World) :
  fst (process_row config endpoint headers row w) = Ok tt ->
  exists parent_id data root household,
    lookup (parent_id_column config) row = Some parent_id /\
    fst (matching_rows_data config parent_id w) = Ok data /\
    pool (snd (process_row config endpoint headers row w))
      = pool w ++ [mkTask root endpoint headers] /\
    find root "household" = Some household /\
    findtext household "HHSize" = Some (str_int (Z.of_nat (length data + 1))) /\
    findtext household "other_members"
      = Some (if Nat.eqb (length data) 0 then "No" else "Yes") /\
    length (findall root "Individual") = length data.
Proof.
  intros H.
  destruct (process_row_Ok config endpoint headers row w H)
    as (parent_id & data & root & Hid & Hm & Hb & Hw).
  apply built_Ok in Hb. destruct Hb as (_ & Hc & ->).
  exists parent_id, data. eexists. eexists.
  split; [exact Hid | ]. split; [exact Hm | ].
  split; [now rewrite Hw | ].
  split; [apply find_household | ].
  destruct (findtext_household row (DataFrame_of_records data)) as [Ho Hs].
  rewrite Ho, Hs, findall_Individual, (empty_complete _ Hc), len_of_records,
    length_map, length_iterrows, len_of_records.
  repeat split. now destruct (length data).
Qed.

Lemma queued_document_counts_matches_witness :
  let row := nth 0 (iterrows households) [] in
  exists parent_id data root household,
    lookup "FID" row = Some parent_id /\
    fst (matching_rows_data survey_config parent_id survey_world) = Ok data /\
    pool (snd (process_row survey_config submissions_endpoint
                           (auth_headers survey_config) row survey_world))
      = [] ++ [mkTask root submissions_endpoint (auth_headers survey_config)] /\
    find root "household" = Some household /\
    findtext household "HHSize" = Some (str_int (Z.of_nat (length data + 1))) /\
    findtext household "other_members"
      = Some (if Nat.eqb (length data) 0 then "No" else "Yes") /\
    length (findall root "Individual") = length data.
Proof.
  cbv zeta.
  apply (queued_document_counts_matches survey_config submissions_endpoint
           (auth_headers survey_config)
           (nth 0 (iterrows households) []) survey_world).
  vm_compute. reflexivity.
Defined.

(** X11. Documents follow the parent rows, each with its own date.  When
    no turn of the batch loop fails, the queued documents are as many as
    the parent rows and in their order: the [i]-th carries the FID of the
    [i]-th row, and the date the calendar showed at the [i]-th look of the
    run, so that the documents of one run need not agree on the date. *)
Theorem documents_follow_parent_rows (config : Config) (endpoint : string)
    (headers : list (string * string)) (rows : list Series) (w : World) :
  fst (for_each rows (process_row config endpoint headers) w) = Ok tt ->
  exists tasks,
    pool (snd (for_each rows (process_row config endpoint headers) w))
      = pool w ++ tasks /\
    length tasks = length rows /\
    forall i row, nth_error rows i = Some row ->
      exists t household,
        nth_error tasks i = Some t /\
        findtext (task_root t) "today"
          = Some (strftime (calendar w (looks w + i))) /\
        find (task_root t) "household" = Some household /\
        findtext household "FID" = Some (str (cell row "FID")).
Proof.
  intros H.
  destruct (loop_success config endpoint headers rows w H)
    as (tasks & Hp & Hlen & _ & _ & Hnth).
  exists tasks. split; [exact Hp | ]. split; [exact Hlen | ].
  intros i row Hi. destruct (Hnth i row Hi) as (pid & data & _ & _ & Ht).
  eexists. eexists. split; [exact Ht | ].
  cbn [task_root]. unfold submission.
  split; [apply findtext_dates | ].
  split; [apply find_household | reflexivity].
Qed.

Lemma documents_follow_parent_rows_witness :
  let body := process_row survey_config submissions_endpoint
                          (auth_headers survey_config) in
  exists tasks,
    pool (snd (for_each (iterrows households) body survey_world))
      = [] ++ tasks /\
    length tasks = 2 /\
    forall i row, nth_error (iterrows households) i = Some row ->
      exists t household,
        nth_error tasks i = Some t /\
        findtext (task_root t) "today"
          = Some (strftime (mkDate 2024 3 (1 + (0 + i)))) /\
        find (task_root t) "household" = Some household /\
        findtext household "FID" = Some (str (cell row "FID")).
Proof.
  cbv zeta.
  apply (documents_follow_parent_rows survey_config submissions_endpoint
           (auth_headers survey_config) (iterrows households) survey_world).
  vm_compute. reflexivity.
Defined.

(** X13. The fixed envelope of a document.  Every document the builder
    returns is a [data] element whose attributes are, in this order, the id
    and the two OpenRosa namespace declarations, and whose intro section
    holds the single entry acknowledgement with the text OK. *)
Theorem document_envelope (row : Series) (matching_rows : DataFrame)
    (project_uuid : string) (w : World) (root : Element) :
  fst (process_submission row matching_rows project_uuid w) = Ok root ->
  tag root = "data" /\
  attrib root = [("id", project_uuid);
                 ("xmlns:orx", "http://openrosa.org/xforms");
                 ("xmlns:jr", "http://openrosa.org/javarosa")] /\
  text root = None /\
  find root "intro"
    = Some (mkElement "intro" [] None [leaf "acknowledgement" "OK"]).
Proof.
  rewrite process_submission_eq. cbn [fst]. intros H.
  apply built_Ok in H. destruct H as (_ & _ & ->). repeat split.
Qed.

Lemma document_envelope_witness :
  let root := submission (mkDate 2024 3 1) doe_row
                         (to_dict_records doe_children) "uuid-1" in
  tag root = "data" /\
  attrib root = [("id", "uuid-1");
                 ("xmlns:orx", "http://openrosa.org/xforms");
                 ("xmlns:jr", "http://openrosa.org/javarosa")] /\
  text root = None /\
  find root "intro"
    = Some (mkElement "intro" [] None [leaf "acknowledgement" "OK"]).
Proof.
  cbv zeta.
  apply (document_envelope doe_row doe_children "uuid-1" quiet_world).
  vm_compute. reflexivity.
Defined.
